(** * The chat view controller of static/script.js

    A shallow embedding of the page script: the part of the document the
    script touches is a record, every function of the script is a function
    on that record, and an [async] function is cut at its [await]s into
    one function per segment.  A suspended call is a [task]; the event
    loop is [dispatch] over user events and settlements of awaited
    promises.

    Conventions.
    - JavaScript strings are [string]s holding their UTF-8 encoding.
    - [console.log], [console.error] and [scrollTop] are not modelled:
      nothing in the script reads them back.
    - The backend's JSON is typed as the script uses it: a history is an
      array of [{id, summary, last_modified}], a conversation an array of
      [{role, text}] with role ['user'] or ['model'], a chat reply
      [{response, conversation_id}], an error body [{detail}] with a
      string detail when it has one. *)

From Stdlib Require Import String Ascii List Bool Arith Lia DecimalString.
Import ListNotations.

Local Open Scope string_scope.
Local Open Scope list_scope.

Notation "a +++ b" := (String.append a b) (at level 60, right associativity).

(** ** Strings *)

Definition string_of_bytes (l : list nat) : string :=
  fold_right (fun n s => String (ascii_of_nat n) s) "" l.

(** [`${n}`] for a non-negative integer. *)
Definition template_of_nat (n : nat) : string :=
  NilEmpty.string_of_uint (Nat.to_uint n).

Definition newline : string := string_of_bytes [10].

(** The code points [String.prototype.trim] strips (WhiteSpace and
    LineTerminator of ECMAScript), in UTF-8. *)
Definition whitespace : list string :=
  map string_of_bytes
    ([ [9]; [10]; [11]; [12]; [13]; [32];
       [194; 160];
       [225; 154; 128] ]
     ++ map (fun k => [226; 128; 128 + k]) (seq 0 11)
     ++ [ [226; 128; 168]; [226; 128; 169]; [226; 128; 175];
          [226; 129; 159];
          [227; 128; 128];
          [239; 187; 191] ]).

Fixpoint strip_prefix (t s : string) : option string :=
  match t with
  | EmptyString => Some s
  | String a t' =>
      match s with
      | EmptyString => None
      | String b s' => if Ascii.eqb a b then strip_prefix t' s' else None
      end
  end.

Fixpoint strip_any (tokens : list string) (s : string) : option string :=
  match tokens with
  | [] => None
  | t :: rest =>
      match strip_prefix t s with
      | Some s' => Some s'
      | None => strip_any rest s
      end
  end.

Fixpoint strip_all (fuel : nat) (tokens : list string) (s : string) : string :=
  match fuel with
  | O => s
  | S fuel' =>
      match strip_any tokens s with
      | Some s' => strip_all fuel' tokens s'
      | None => s
      end
  end.

Definition reverse (s : string) : string :=
  string_of_list_ascii (rev (list_ascii_of_string s)).

Definition trimStart (s : string) : string :=
  strip_all (String.length s) whitespace s.

Definition trimEnd (s : string) : string :=
  reverse (strip_all (String.length s) (map reverse whitespace) (reverse s)).

Definition trim (s : string) : string := trimEnd (trimStart s).

Fixpoint is_prefix (t s : string) : bool :=
  match t with
  | EmptyString => true
  | String a t' =>
      match s with
      | EmptyString => false
      | String b s' => Ascii.eqb a b && is_prefix t' s'
      end
  end.


(** ** The document *)

#[local] Set Warnings "-register-all".

(** Nodes of the transcript. *)
Inductive node : Type :=
| Text (data : string)
| Element (tagName : string) (id : string) (classList : list string)
          (childNodes : list node).

Fixpoint textContent (n : node) : string :=
  match n with
  | Text data => data
  | Element _ _ _ children =>
      fold_right (fun c s => textContent c +++ s) "" children
  end.

Definition has_id (i : string) (n : node) : bool :=
  match n with
  | Text _ => false
  | Element _ j _ _ => String.eqb i j
  end.

(** Does a subtree hold an element with id [i]? *)
Fixpoint mentions_id (i : string) (n : node) : bool :=
  match n with
  | Text _ => false
  | Element _ j _ children =>
      String.eqb i j || existsb (mentions_id i) children
  end.

(** [document.getElementById(i).remove()] below a node: the first element
    with id [i] in tree order leaves its parent. *)
Fixpoint remove_below (i : string) (n : node) : node :=
  match n with
  | Text _ => n
  | Element t j cl children =>
      Element t j cl
        ((fix go (l : list node) : list node :=
            match l with
            | [] => []
            | c :: r =>
                if has_id i c then r
                else if mentions_id i c then remove_below i c :: r
                else c :: go r
            end) children)
  end.

Fixpoint remove_by_id (i : string) (l : list node) : list node :=
  match l with
  | [] => []
  | c :: r =>
      if has_id i c then r
      else if mentions_id i c then remove_below i c :: r
      else c :: remove_by_id i r
  end.

Inductive role : Type := user | model.

Definition role_class (r : role) : string :=
  match r with user => "user" | model => "model" end.

(** An item of the history panel. *)
Record li : Type := mkLi {
  li_textContent : string;
  li_conversationId : option string; (* dataset.conversationId, None: not set *)
  li_title : string;
  li_active : bool;                  (* classList holds 'active' *)
  li_click : option string           (* its listener calls loadConversation(id) *)
}.

(** [<li>text</li>] as [innerHTML] parses it. *)
Definition plain_li (text : string) : li :=
  mkLi text None "" false None.

Record page : Type := mkPage {
  chatOutput : list node;          (* children of #chat-output *)
  historyList : list li;           (* the li of #history-list *)
  promptInput_value : string;
  promptInput_disabled : bool;
  promptInput_focused : bool;
  sendButton_disabled : bool;
  currentConversationId : option string;   (* None: null *)
  isLoading : bool
}.

Definition with_chatOutput (c : list node) (p : page) : page :=
  mkPage c (historyList p) (promptInput_value p) (promptInput_disabled p)
    (promptInput_focused p) (sendButton_disabled p)
    (currentConversationId p) (isLoading p).

Definition with_historyList (h : list li) (p : page) : page :=
  mkPage (chatOutput p) h (promptInput_value p) (promptInput_disabled p)
    (promptInput_focused p) (sendButton_disabled p)
    (currentConversationId p) (isLoading p).

Definition with_value (v : string) (p : page) : page :=
  mkPage (chatOutput p) (historyList p) v (promptInput_disabled p)
    (promptInput_focused p) (sendButton_disabled p)
    (currentConversationId p) (isLoading p).

Definition with_focused (b : bool) (p : page) : page :=
  mkPage (chatOutput p) (historyList p) (promptInput_value p)
    (promptInput_disabled p) b (sendButton_disabled p)
    (currentConversationId p) (isLoading p).

Definition with_currentConversationId (c : option string) (p : page) : page :=
  mkPage (chatOutput p) (historyList p) (promptInput_value p)
    (promptInput_disabled p) (promptInput_focused p) (sendButton_disabled p)
    c (isLoading p).

(** [promptInput.focus()]: a disabled control does not take the focus. *)
Definition focus (p : page) : page :=
  if promptInput_disabled p then p else with_focused true p.

(** ** The backend *)

Record ConversationSummary : Type := mkSummary {
  conv_id : string;
  conv_summary : string;
  conv_last_modified : string
}.

Record Message : Type := mkMessage {
  msg_role : role;
  msg_text : string
}.

Record ChatReply : Type := mkReply {
  response : string;
  conversation_id : option string
}.

(** What [await fetch(...)] yields. *)
Inductive fetch_result : Type :=
| Rejected (message : string)    (* the promise rejects with an Error *)
| Resolved (status : nat).       (* a Response *)

(** [response.ok] *)
Definition ok (status : nat) : bool :=
  Nat.leb 200 status && Nat.leb status 299.

(** What [await response.json()] yields. *)
Inductive json_result (A : Type) : Type :=
| JsonRejected (message : string)
| Json (value : A).

Arguments JsonRejected {A} message.
Arguments Json {A} value.

Inductive request : Type :=
| GET_history
| GET_conversation (id : string)
| POST_chat (prompt : string) (conversation_id : option string).

(** A call of an async function suspended at an [await]. *)
Inductive task : Type :=
| HistoryFetch                      (* loadHistoryList, line 77 *)
| HistoryBody                       (* loadHistoryList, line 81 *)
| ConversationFetch (id : string)   (* loadConversation, line 119 *)
| ConversationBody                  (* loadConversation, line 127 *)
| ChatFetch (prompt : string) (conversation_id : option string)
                                    (* sendPrompt, line 150 *)
| ChatErrorBody (status : nat)      (* sendPrompt, line 168 *)
| ChatBody.                         (* sendPrompt, line 174 *)

Definition request_of (t : task) : option request :=
  match t with
  | HistoryFetch => Some GET_history
  | ConversationFetch id => Some (GET_conversation id)
  | ChatFetch prompt cid => Some (POST_chat prompt cid)
  | HistoryBody | ConversationBody | ChatErrorBody _ | ChatBody => None
  end.

(** ** The script *)

(** The [div] that [addMessage] builds (lines 19-29). *)
Definition messageDiv (r : role) (text : string) : node :=
  Element "div" "" ["message"; role_class r]
    [ Element "strong" "" [] [Text (match r with user => "You:" | model => "Model:" end)];
      Text (" " +++ text) ].

Definition addMessage (r : role) (text : string) (p : page) : page :=
  with_chatOutput (chatOutput p ++ [messageDiv r text]) p.

Definition loadingDiv : node :=
  Element "div" "loading-indicator" ["message"; "model"; "loading"]
    [Text "Model is thinking..."].

Definition addLoadingIndicator (p : page) : page :=
  with_chatOutput (chatOutput p ++ [loadingDiv]) p.

Definition removeLoadingIndicator (p : page) : page :=
  with_chatOutput (remove_by_id "loading-indicator" (chatOutput p)) p.

Definition clearChatOutput (p : page) : page :=
  addMessage model "Started a new chat." (with_chatOutput [] p).

Definition setLoading (loading : bool) (p : page) : page :=
  let p := mkPage (chatOutput p) (historyList p) (promptInput_value p)
             loading (promptInput_focused p) loading
             (currentConversationId p) loading in
  if loading then addLoadingIndicator p else removeLoadingIndicator p.

(** [li.dataset.conversationId === id] for [id] null or a string: an
    item without the attribute reads [undefined], equal to neither. *)
Definition dataset_is (l : li) (id : option string) : bool :=
  match li_conversationId l, id with
  | Some a, Some b => String.eqb a b
  | _, _ => false
  end.

(** [li.classList.toggle('active', force)] *)
Definition toggle_active (force : bool) (l : li) : li :=
  mkLi (li_textContent l) (li_conversationId l) (li_title l) force (li_click l).

(** [querySelectorAll('#history-list li').forEach(li => toggle(...))],
    lines 114-116 and 182-184. *)
Definition highlight (id : option string) (p : page) : page :=
  with_historyList
    (map (fun l => toggle_active (dataset_is l id) l) (historyList p)) p.

(** [a === b] on conversation ids (null or strings). *)
Definition id_eqb (a b : option string) : bool :=
  match a, b with
  | None, None => true
  | Some x, Some y => String.eqb x y
  | _, _ => false
  end.

(** *** loadHistoryList *)

(** The [li] of lines 88-95. *)
Definition history_li (current : option string) (conv : ConversationSummary) : li :=
  mkLi (conv_summary conv)
       (Some (conv_id conv))
       ("ID: " +++ conv_id conv +++ newline +++ "Last Modified: "
          +++ conv_last_modified conv)
       (id_eqb (Some (conv_id conv)) current)
       (Some (conv_id conv)).

Definition loadHistoryList_catch (p : page) : page :=
  with_historyList [plain_li "Error loading history."] p.

(** Up to [await fetch('/api/history')]. *)
Definition loadHistoryList (p : page) : page * list task :=
  (with_historyList [plain_li "Loading history..."] p, [HistoryFetch]).

(** From the fetch to [await response.json()]. *)
Definition loadHistoryList_fetched (r : fetch_result) (p : page)
  : page * list task :=
  match r with
  | Rejected _ => (loadHistoryList_catch p, [])
  | Resolved status =>
      if negb (ok status) then (loadHistoryList_catch p, [])
      else (p, [HistoryBody])
  end.

(** From the parsed body to the end. *)
Definition loadHistoryList_parsed (j : json_result (list ConversationSummary))
  (p : page) : page * list task :=
  match j with
  | JsonRejected _ => (loadHistoryList_catch p, [])
  | Json conversations =>
      let p := with_historyList [] p in
      if Nat.eqb (length conversations) 0 then
        (with_historyList [plain_li "No past conversations found."] p, [])
      else
        (fold_left
           (fun p conv =>
              with_historyList
                (historyList p ++ [history_li (currentConversationId p) conv]) p)
           conversations p, [])
  end.

(** *** loadConversation *)

Definition loadConversation_catch (message : string) (p : page) : page :=
  addMessage model ("Error loading conversation: " +++ message) p.

Definition loadConversation_finally (p : page) : page :=
  setLoading false p.

(** Up to [await fetch(`/api/history/${conversationId}`)]. *)
Definition loadConversation (conversationId : string) (p : page)
  : page * list task :=
  if isLoading p then (p, [])
  else
    let p := setLoading true p in
    let p := clearChatOutput p in
    let p := with_currentConversationId (Some conversationId) p in
    let p := highlight (Some conversationId) p in
    (p, [ConversationFetch conversationId]).

Definition loadConversation_fetched (r : fetch_result) (p : page)
  : page * list task :=
  match r with
  | Rejected message =>
      (loadConversation_finally (loadConversation_catch message p), [])
  | Resolved status =>
      if negb (ok status) then
        if Nat.eqb status 404 then
          (loadConversation_finally
             (addMessage model "Error: Conversation not found." p), [])
        else
          (loadConversation_finally
             (loadConversation_catch
                ("HTTP error! status: " +++ template_of_nat status) p), [])
      else (p, [ConversationBody])
  end.

Definition loadConversation_parsed (j : json_result (list Message)) (p : page)
  : page * list task :=
  match j with
  | JsonRejected message =>
      (loadConversation_finally (loadConversation_catch message p), [])
  | Json messages =>
      (loadConversation_finally
         (fold_left (fun p msg => addMessage (msg_role msg) (msg_text msg) p)
            messages p), [])
  end.

(** *** sendPrompt *)

Definition sendPrompt_catch (message : string) (p : page) : page :=
  addMessage model ("Error: " +++ message) (removeLoadingIndicator p).

Definition sendPrompt_finally (p : page) : page :=
  focus (setLoading false p).

(** Up to [await fetch('/api/chat', ...)]. *)
Definition sendPrompt (p : page) : page * list task :=
  let promptText := trim (promptInput_value p) in
  if String.eqb promptText "" || isLoading p then (p, [])
  else
    let p := setLoading true p in
    let p := addMessage user promptText p in
    let p := with_value "" p in
    (p, [ChatFetch promptText (currentConversationId p)]).

Definition sendPrompt_fetched (r : fetch_result) (p : page)
  : page * list task :=
  match r with
  | Rejected message => (sendPrompt_finally (sendPrompt_catch message p), [])
  | Resolved status =>
      let p := removeLoadingIndicator p in
      if negb (ok status) then (p, [ChatErrorBody status])
      else (p, [ChatBody])
  end.

(** Lines 166-171 after [await response.json()] of the error body; the
    body's detail is [None] when the object has no such field. *)
Definition sendPrompt_error_parsed (status : nat)
  (j : json_result (option string)) (p : page) : page * list task :=
  let errorDetail := "HTTP error! status: " +++ template_of_nat status in
  let errorDetail :=
    match j with
    | JsonRejected _ => errorDetail
    | Json detail =>
        match detail with
        | Some d => if String.eqb d "" then errorDetail else d
        | None => errorDetail
        end
    end in
  (sendPrompt_finally (sendPrompt_catch errorDetail p), []).

(** Lines 174-185. *)
Definition sendPrompt_parsed (j : json_result ChatReply) (p : page)
  : page * list task :=
  match j with
  | JsonRejected message => (sendPrompt_finally (sendPrompt_catch message p), [])
  | Json data =>
      let p := addMessage model (response data) p in
      if negb (id_eqb (currentConversationId p) (conversation_id data)) then
        let p := with_currentConversationId (conversation_id data) p in
        let '(p, spawned) := loadHistoryList p in
        let p := highlight (currentConversationId p) p in
        (sendPrompt_finally p, spawned)
      else (sendPrompt_finally p, [])
  end.

(** *** startNewChat *)

Definition startNewChat (p : page) : page :=
  if isLoading p then p
  else
    let p := with_currentConversationId None p in
    let p := clearChatOutput p in
    let p := with_value "" p in
    let p := focus p in
    with_historyList
      (map (fun l => if li_active l then toggle_active false l else l)
         (historyList p)) p.

(** ** Calls run to their end

    The segments of one call composed in order, for the settlements the
    network gives it: the fetch, then the body the script goes on to read
    ([e]: the error body of line 168, [d]: the data of line 174). *)

Definition loadHistoryList_settled (r : fetch_result)
  (j : json_result (list ConversationSummary)) (p : page) : page * list task :=
  match loadHistoryList_fetched r p with
  | (p', HistoryBody :: _) => loadHistoryList_parsed j p'
  | (p', _) => (p', [])
  end.

Definition loadConversation_settled (r : fetch_result)
  (j : json_result (list Message)) (p : page) : page * list task :=
  match loadConversation_fetched r p with
  | (p', ConversationBody :: _) => loadConversation_parsed j p'
  | (p', _) => (p', [])
  end.

Definition sendPrompt_settled (r : fetch_result)
  (e : json_result (option string)) (d : json_result ChatReply) (p : page)
  : page * list task :=
  match sendPrompt_fetched r p with
  | (p', ChatErrorBody status :: _) => sendPrompt_error_parsed status e p'
  | (p', ChatBody :: _) => sendPrompt_parsed d p'
  | (p', _) => (p', [])
  end.

(** ** The event loop *)

Record world : Type := mkWorld {
  doc : page;
  pending : list task;      (* suspended calls *)
  sent : list request       (* every request issued so far *)
}.

Definition requests_of (ts : list task) : list request :=
  flat_map (fun t => match request_of t with
                     | Some r => [r]
                     | None => []
                     end) ts.

(** A handler or a resumed call returns: its tasks join the pending ones
    and their requests go out. *)
Definition commit (rest : list task) (sent0 : list request)
  (r : page * list task) : world :=
  mkWorld (fst r) (rest ++ snd r) (sent0 ++ requests_of (snd r)).

(** What an awaited promise settles to. *)
Inductive settlement : Type :=
| Fetched (r : fetch_result)
| ParsedHistory (j : json_result (list ConversationSummary))
| ParsedConversation (j : json_result (list Message))
| ParsedError (j : json_result (option string))
| ParsedChat (j : json_result ChatReply).

Definition resume (t : task) (s : settlement) (p : page)
  : option (page * list task) :=
  match t, s with
  | HistoryFetch, Fetched r => Some (loadHistoryList_fetched r p)
  | HistoryBody, ParsedHistory j => Some (loadHistoryList_parsed j p)
  | ConversationFetch _, Fetched r => Some (loadConversation_fetched r p)
  | ConversationBody, ParsedConversation j => Some (loadConversation_parsed j p)
  | ChatFetch _ _, Fetched r => Some (sendPrompt_fetched r p)
  | ChatErrorBody status, ParsedError j =>
      Some (sendPrompt_error_parsed status j p)
  | ChatBody, ParsedChat j => Some (sendPrompt_parsed j p)
  | _, _ => None
  end.

Inductive event : Type :=
| Click_send                                  (* line 214 *)
| Keypress (key : string) (shiftKey : bool)   (* lines 215-221 *)
| Click_newChat                               (* line 222 *)
| Click_li (n : nat)                          (* line 95, on the n-th item *)
| Input (value : string)                      (* the user edits the prompt *)
| Settle (n : nat) (s : settlement).          (* the n-th pending call resumes *)

Definition dispatch (w : world) (e : event) : world :=
  match e with
  | Click_send => commit (pending w) (sent w) (sendPrompt (doc w))
  | Keypress key shiftKey =>
      if String.eqb key "Enter" && negb shiftKey
      then commit (pending w) (sent w) (sendPrompt (doc w))
      else w
  | Click_newChat => commit (pending w) (sent w) (startNewChat (doc w), [])
  | Click_li n =>
      match nth_error (historyList (doc w)) n with
      | Some l =>
          match li_click l with
          | Some id => commit (pending w) (sent w) (loadConversation id (doc w))
          | None => w
          end
      | None => w
      end
  | Input value => mkWorld (with_value value (doc w)) (pending w) (sent w)
  | Settle n s =>
      match nth_error (pending w) n with
      | Some t =>
          match resume t s (doc w) with
          | Some r =>
              commit (firstn n (pending w) ++ skipn (S n) (pending w)) (sent w) r
          | None => w
          end
      | None => w
      end
  end.

Definition run (w : world) (es : list event) : world :=
  fold_left dispatch es w.

(** The DOMContentLoaded handler over the static markup (lines 3-13 and
    225-226): the state starts at (null, false), the history is asked for
    and the prompt takes the focus. *)
Definition DOMContentLoaded (chat : list node) (history : list li)
  (value : string) : world :=
  let p := mkPage chat history value false false false None false in
  let '(p, spawned) := loadHistoryList p in
  commit [] [] (focus p, spawned).

(** Calls of [sendPrompt] and [loadConversation] among the suspended
    ones, and those of [sendPrompt] alone. *)
Definition guarded (t : task) : bool :=
  match t with
  | HistoryFetch | HistoryBody => false
  | _ => true
  end.

Definition to_chat (t : task) : bool :=
  match t with
  | ChatFetch _ _ | ChatErrorBody _ | ChatBody => true
  | _ => false
  end.

Definition count (f : task -> bool) (ts : list task) : nat :=
  length (filter f ts).

(** No element of the transcript carries the indicator's id. *)
Definition indicator_free (c : list node) : Prop :=
  existsb (mentions_id "loading-indicator") c = false.

(** ** Vocabulary of the properties *)

(** The label [addMessage] writes for a role (line 23). *)
Definition role_label (r : role) : string :=
  match r with user => "You:" | model => "Model:" end.

(** Tag names of the elements of a subtree, in tree order. *)
Fixpoint elements (n : node) : list string :=
  match n with
  | Text _ => []
  | Element t _ _ children => t :: flat_map elements children
  end.

(** Sample states. *)
Definition idle_page : page :=
  mkPage [messageDiv user "hi"; messageDiv model "hello!"]
    [history_li (Some "c2") (mkSummary "c1" "first" "2024-05-01");
     history_li (Some "c2") (mkSummary "c2" "second" "2024-05-02")]
    "  what next? " false true false (Some "c2") false.

(** [errorDetail] at line 171. *)
Definition error_detail (status : nat) (e : json_result (option string))
  : string :=
  match e with
  | Json (Some d) =>
      if String.eqb d "" then "HTTP error! status: " +++ template_of_nat status
      else d
  | _ => "HTTP error! status: " +++ template_of_nat status
  end.

(** The text a settled send shows, by what the network gave it. *)
Definition answer (r : fetch_result) (e : json_result (option string))
  (d : json_result ChatReply) : string :=
  match r with
  | Rejected message => "Error: " +++ message
  | Resolved status =>
      if ok status then
        match d with
        | Json data => response data
        | JsonRejected message => "Error: " +++ message
        end
      else "Error: " +++ error_detail status e
  end.

(** The page takes input: nothing loading, nothing disabled. *)
Definition interactive (p : page) : Prop :=
  isLoading p = false /\
  indicator_free (chatOutput p) /\
  sendButton_disabled p = false /\
  promptInput_disabled p = false.

(** The items a settled [loadHistoryList] leaves in the panel. *)
Definition rendered (r : fetch_result)
  (j : json_result (list ConversationSummary)) (current : option string)
  : list li :=
  match r with
  | Rejected _ => [plain_li "Error loading history."]
  | Resolved status =>
      if ok status then
        match j with
        | JsonRejected _ => [plain_li "Error loading history."]
        | Json [] => [plain_li "No past conversations found."]
        | Json convs => map (history_li current) convs
        end
      else [plain_li "Error loading history."]
  end.

(** One whole refresh of the panel: the call and its settlements. *)
Definition refresh (r : fetch_result)
  (j : json_result (list ConversationSummary)) (p : page) : page :=
  fst (loadHistoryList_settled r j (fst (loadHistoryList p))).

Definition fresh_page : page :=
  mkPage [messageDiv model "Started a new chat."]
    [plain_li "No past conversations found."]
    "hi" false true false None false.

(** The suspended calls of [sendPrompt] and [loadConversation] number one
    while the page is loading and none while it is not. *)
Definition guard_holds (w : world) : Prop :=
  count guarded (pending w) = if isLoading (doc w) then 1 else 0.

Definition busy_world : world :=
  run (DOMContentLoaded [] [] "  hello ") [Click_send].

(** The transcript holds the indicator at most once, at the top level. *)
Definition at_most_one_indicator (c : list node) : Prop :=
  indicator_free c \/
  exists before after,
    c = before ++ loadingDiv :: after /\
    indicator_free before /\ indicator_free after.

Definition tidy (p : page) : Prop :=
  at_most_one_indicator (chatOutput p) /\
  (isLoading p = false -> indicator_free (chatOutput p)).

(** The reply of a send that succeeded: a 2xx response whose body
    parses. *)
Definition succeeded (r : fetch_result) (d : json_result ChatReply)
  : option ChatReply :=
  match r, d with
  | Resolved status, Json data => if ok status then Some data else None
  | _, _ => None
  end.

(** Strings of tabs, line feeds, vertical tabs, form feeds, carriage
    returns and spaces only. *)
Fixpoint blank (s : string) : bool :=
  match s with
  | EmptyString => true
  | String a s' =>
      existsb (Nat.eqb (nat_of_ascii a)) [9; 10; 11; 12; 13; 32] && blank s'
  end.

(** The message a conversation's entry is rendered to. *)
Definition message_text (m : Message) : string :=
  role_label (msg_role m) +++ " " +++ msg_text m.

(** The controls mirror the loading flag. *)
Definition controls_follow_loading (p : page) : Prop :=
  sendButton_disabled p = isLoading p /\ promptInput_disabled p = isLoading p.

(** The conversations a history request delivers: those of a 2xx
    response whose body parses. *)
Definition delivered (r : fetch_result)
  (j : json_result (list ConversationSummary))
  : option (list ConversationSummary) :=
  match r, j with
  | Resolved status, Json convs => if ok status then Some convs else None
  | _, _ => None
  end.

(** The world with its page replaced. *)
Definition with_doc (p : page) (w : world) : world :=
  mkWorld p (pending w) (sent w).

(** * Properties *)

(** ** Strings and nodes *)

Lemma append_empty_r (s : string) : s +++ "" = s.
Proof.
  induction s as [|a s IH]; simpl; [reflexivity | now rewrite IH].
Qed.

Lemma has_id_mentions (i : string) (n : node) :
  has_id i n = true -> mentions_id i n = true.
Proof.
  destruct n as [d | t j cl ch]; simpl; intros H; [discriminate |].
  now rewrite H.
Qed.

Lemma remove_by_id_absent (i : string) (c : list node) :
  existsb (mentions_id i) c = false -> remove_by_id i c = c.
Proof.
  induction c as [|n c IH]; simpl; intros H; [reflexivity |].
  apply orb_false_iff in H as [Hn Hc].
  destruct (has_id i n) eqn:E.
  - apply has_id_mentions in E. congruence.
  - rewrite Hn. now rewrite IH.
Qed.

Lemma remove_by_id_first (i : string) (c r : list node) (n : node) :
  existsb (mentions_id i) c = false -> has_id i n = true ->
  remove_by_id i (c ++ n :: r) = c ++ r.
Proof.
  intros Hc Hn. induction c as [|m c IH]; simpl in *.
  - now rewrite Hn.
  - apply orb_false_iff in Hc as [Hm Hc].
    destruct (has_id i m) eqn:E.
    + apply has_id_mentions in E. congruence.
    + rewrite Hm. now rewrite IH.
Qed.

Lemma messageDiv_no_indicator (r : role) (text : string) :
  mentions_id "loading-indicator" (messageDiv r text) = false.
Proof. destruct r; reflexivity. Qed.

Lemma indicator_free_app (c d : list node) :
  indicator_free c -> indicator_free d -> indicator_free (c ++ d).
Proof.
  unfold indicator_free. intros Hc Hd.
  now rewrite existsb_app, Hc, Hd.
Qed.

Lemma indicator_free_messages (l : list Message) :
  indicator_free (map (fun m => messageDiv (msg_role m) (msg_text m)) l).
Proof.
  unfold indicator_free. induction l as [|m l IH]; [reflexivity |].
  cbn [map existsb]. now rewrite messageDiv_no_indicator.
Qed.

Lemma id_eqb_eq (a b : option string) : id_eqb a b = true <-> a = b.
Proof.
  destruct a as [x|], b as [y|]; simpl; split; intros H;
    try discriminate; try reflexivity.
  - apply String.eqb_eq in H. now subst.
  - injection H as ->. apply String.eqb_refl.
Qed.

Lemma id_eqb_neq (a b : option string) : id_eqb a b = false <-> a <> b.
Proof.
  split.
  - intros H E. apply id_eqb_eq in E. congruence.
  - intros H. destruct (id_eqb a b) eqn:E; [| reflexivity].
    apply id_eqb_eq in E. contradiction.
Qed.

(** ** The loops of the script as maps *)

Lemma render_history (convs : list ConversationSummary) (p : page) :
  fold_left
    (fun p conv =>
       with_historyList
         (historyList p ++ [history_li (currentConversationId p) conv]) p)
    convs p
  = with_historyList
      (historyList p ++ map (history_li (currentConversationId p)) convs) p.
Proof.
  revert p. induction convs as [|c convs IH]; intros p; simpl.
  - rewrite app_nil_r. now destruct p.
  - rewrite IH. simpl. unfold with_historyList at 1 3. simpl.
    now rewrite <- app_assoc.
Qed.

Lemma render_messages (msgs : list Message) (p : page) :
  fold_left (fun p msg => addMessage (msg_role msg) (msg_text msg) p) msgs p
  = with_chatOutput
      (chatOutput p
         ++ map (fun m => messageDiv (msg_role m) (msg_text m)) msgs) p.
Proof.
  revert p. induction msgs as [|m msgs IH]; intros p; simpl.
  - rewrite app_nil_r. now destruct p.
  - rewrite IH. unfold addMessage, with_chatOutput. simpl.
    now rewrite <- app_assoc.
Qed.

(** ** addMessage *)

(** C5: for either role and every text, [addMessage] appends one node to
    the transcript; its visible text is the role's label, a space and the
    text as given; the text sits in a text node, so whatever it holds the
    node's elements are the [div] and its [strong] and nothing else.
    [addMessage('user', 'hello')] reads [You: hello], and a text of
    [<script>] reads [You: <script>]. *)
Theorem addMessage_renders_literal_text (r : role) (text : string) (p : page) :
  (exists n,
      chatOutput (addMessage r text p) = chatOutput p ++ [n] /\
      textContent n = role_label r +++ " " +++ text /\
      elements n = ["div"; "strong"] /\
      (exists strong, has_id "" strong = true /\ textContent strong = role_label r /\
         match n with
         | Element _ _ _ children => children = [strong; Text (" " +++ text)]
         | Text _ => False
         end)) /\
  textContent (messageDiv user "hello") = "You: hello" /\
  textContent (messageDiv user "<script>") = "You: <script>".
Proof.
  split; [| split; reflexivity].
  exists (messageDiv r text). split; [reflexivity |]. split.
  - destruct r; simpl; now rewrite append_empty_r.
  - split; [reflexivity |].
    exists (Element "strong" "" [] [Text (role_label r)]).
    destruct r; repeat split.
Qed.

(** ** loadConversation on a 404 *)




(** ** startNewChat *)



(** ** sendPrompt *)

Arguments messageDiv : simpl never.
Arguments remove_by_id : simpl never.

Lemma sendPrompt_starts (p : page) :
  isLoading p = false -> trim (promptInput_value p) <> "" ->
  sendPrompt p
  = (mkPage (chatOutput p
               ++ [loadingDiv; messageDiv user (trim (promptInput_value p))])
       (historyList p) "" true (promptInput_focused p) true
       (currentConversationId p) true,
     [ChatFetch (trim (promptInput_value p)) (currentConversationId p)]).
Proof.
  intros H Hne. unfold sendPrompt. rewrite H.
  destruct (String.eqb (trim (promptInput_value p)) "") eqn:E.
  - apply String.eqb_eq in E. contradiction.
  - simpl. unfold addMessage, with_value, with_chatOutput. simpl.
    now rewrite <- app_assoc.
Qed.

Lemma sendPrompt_finally_fields (p : page) :
  sendPrompt_finally p
  = mkPage (remove_by_id "loading-indicator" (chatOutput p)) (historyList p)
      (promptInput_value p) false true false (currentConversationId p) false.
Proof. reflexivity. Qed.

Lemma sendPrompt_catch_fields (message : string) (p : page) :
  sendPrompt_catch message p
  = with_chatOutput
      (remove_by_id "loading-indicator" (chatOutput p)
         ++ [messageDiv model ("Error: " +++ message)]) p.
Proof. reflexivity. Qed.

(** A send settles: from a page whose transcript holds the indicator
    once, at the top level, to the page it leaves. *)
Lemma sendPrompt_settled_fields (r : fetch_result)
  (e : json_result (option string)) (d : json_result ChatReply)
  (c rest : list node) (p : page) :
  indicator_free c -> indicator_free rest ->
  chatOutput p = c ++ loadingDiv :: rest ->
  let p' := fst (sendPrompt_settled r e d p) in
  chatOutput p' = c ++ rest ++ [messageDiv model (answer r e d)] /\
  promptInput_value p' = promptInput_value p /\
  promptInput_disabled p' = false /\
  sendButton_disabled p' = false /\
  isLoading p' = false.
Proof.
  intros Hc Hrest Hp.
  assert (Hfree : forall m,
    remove_by_id "loading-indicator" (c ++ rest ++ [messageDiv model m])
    = c ++ rest ++ [messageDiv model m]).
  { intros m. apply remove_by_id_absent.
    repeat apply indicator_free_app; try assumption.
    unfold indicator_free. cbn [existsb].
    now rewrite messageDiv_no_indicator. }
  assert (Hrm : remove_by_id "loading-indicator" (c ++ rest) = c ++ rest).
  { apply remove_by_id_absent. now apply indicator_free_app. }
  assert (Hone : remove_by_id "loading-indicator" (c ++ loadingDiv :: rest)
                 = c ++ rest).
  { now apply remove_by_id_first. }
  unfold sendPrompt_settled, sendPrompt_fetched.
  destruct r as [message | status]; cbn [answer].
  - rewrite sendPrompt_finally_fields, sendPrompt_catch_fields. cbn.
    rewrite Hp, Hone.
    rewrite <- app_assoc, Hfree. repeat split.
  - destruct (ok status); cbn [negb].
    + unfold sendPrompt_parsed. destruct d as [message | data].
      * rewrite sendPrompt_finally_fields, sendPrompt_catch_fields. cbn.
        rewrite Hp, Hone.
        rewrite Hrm, <- app_assoc, Hfree. repeat split.
      * destruct (negb _); cbn [loadHistoryList];
          rewrite sendPrompt_finally_fields; cbn;
          rewrite Hp, Hone;
          rewrite <- app_assoc, Hfree; repeat split.
    + unfold sendPrompt_error_parsed.
      rewrite sendPrompt_finally_fields, sendPrompt_catch_fields. cbn.
      rewrite Hp, Hone.
      rewrite Hrm, <- app_assoc, Hfree. repeat split.
Qed.

(** What a settled send does to the history panel and the current id. *)
Lemma sendPrompt_settled_history (status : nat)
  (e : json_result (option string)) (data : ChatReply) (p : page) :
  ok status = true ->
  let res := sendPrompt_settled (Resolved status) e (Json data) p in
  if id_eqb (currentConversationId p) (conversation_id data) then
    historyList (fst res) = historyList p /\
    currentConversationId (fst res) = currentConversationId p /\
    snd res = []
  else
    historyList (fst res) = [plain_li "Loading history..."] /\
    currentConversationId (fst res) = conversation_id data /\
    snd res = [HistoryFetch].
Proof.
  intros Hok. unfold sendPrompt_settled, sendPrompt_fetched. rewrite Hok.
  cbn [negb]. unfold sendPrompt_parsed. cbn.
  destruct (id_eqb (currentConversationId p) (conversation_id data));
    cbn; repeat split.
Qed.



(** ** The error message of a send *)




(** ** The loading state is cleared *)

Lemma loadConversation_starts (id : string) (p : page) :
  isLoading p = false ->
  loadConversation id p
  = (mkPage [messageDiv model "Started a new chat."]
       (map (fun l => toggle_active (dataset_is l (Some id)) l) (historyList p))
       (promptInput_value p) true (promptInput_focused p) true (Some id) true,
     [ConversationFetch id]).
Proof. intros H. unfold loadConversation. now rewrite H. Qed.

Lemma loadConversation_finally_fields (p : page) :
  loadConversation_finally p
  = mkPage (remove_by_id "loading-indicator" (chatOutput p)) (historyList p)
      (promptInput_value p) false (promptInput_focused p) false
      (currentConversationId p) false.
Proof. reflexivity. Qed.

(** A load settles: the transcript keeps what it held and gains the
    conversation's messages or one error message. *)
Lemma loadConversation_settled_fields (r : fetch_result)
  (j : json_result (list Message)) (p : page) :
  indicator_free (chatOutput p) ->
  let res := loadConversation_settled r j p in
  ((exists added, chatOutput (fst res) = chatOutput p ++ added) /\
   interactive (fst res)) /\
  snd res = [].
Proof.
  intros Hfree.
  assert (Hmsg : forall rl m, indicator_free (chatOutput p ++ [messageDiv rl m])).
  { intros rl m. apply indicator_free_app; [assumption |].
    unfold indicator_free. cbn [existsb]. now rewrite messageDiv_no_indicator. }
  assert (Hend : forall c, indicator_free (chatOutput p ++ c) ->
    let p' := loadConversation_finally (with_chatOutput (chatOutput p ++ c) p) in
    (exists added, chatOutput p' = chatOutput p ++ added) /\ interactive p').
  { intros c Hc. rewrite loadConversation_finally_fields. cbn.
    rewrite (remove_by_id_absent _ _ Hc). split; [now exists c |].
    repeat split. exact Hc. }
  unfold loadConversation_settled, loadConversation_fetched.
  destruct r as [message | status].
  - cbn [fst snd]. split; [| reflexivity]. apply Hend, Hmsg.
  - destruct (ok status); cbn [negb].
    + unfold loadConversation_parsed. destruct j as [message | messages].
      * cbn [fst snd]. split; [| reflexivity]. apply Hend, Hmsg.
      * cbn [fst snd]. split; [| reflexivity]. rewrite render_messages.
        apply Hend, indicator_free_app; [assumption |].
        apply indicator_free_messages.
    + destruct (Nat.eqb status 404); cbn [fst snd];
        (split; [| reflexivity]); apply Hend, Hmsg.
Qed.

(** C8: whatever the network gives (a rejected fetch, a status that is
    not 2xx with any body, a 2xx with a body that parses or not), once a
    [sendPrompt] or a [loadConversation] started on a page that was not
    loading has settled, [isLoading] is false, the transcript holds no
    loading indicator, and the send button and the prompt are enabled;
    the call itself is over (a send leaves at most a history refresh
    behind). *)
Theorem loading_state_always_cleared (p : page) :
  isLoading p = false ->
  indicator_free (chatOutput p) ->
  (trim (promptInput_value p) <> "" ->
   forall r e d,
     let res := sendPrompt_settled r e d (fst (sendPrompt p)) in
     interactive (fst res) /\ count guarded (snd res) = 0) /\
  (forall id r j,
     let res := loadConversation_settled r j (fst (loadConversation id p)) in
     interactive (fst res) /\ snd res = []).
Proof.
  intros H Hfree. split.
  - intros Hne r e d. cbn zeta. rewrite (sendPrompt_starts p H Hne). cbn [fst].
    assert (Huser : indicator_free [messageDiv user (trim (promptInput_value p))]).
    { unfold indicator_free. cbn [existsb]. now rewrite messageDiv_no_indicator. }
    split.
    + match goal with
      | |- context [sendPrompt_settled r e d ?q] =>
          destruct (sendPrompt_settled_fields r e d (chatOutput p)
                      [messageDiv user (trim (promptInput_value p))] q
                      Hfree Huser eq_refl) as [Hc [_ [Hd [Hs Hl]]]]
      end.
      repeat split; try assumption.
      rewrite Hc. apply indicator_free_app; [assumption |].
      apply indicator_free_app; [assumption |].
      unfold indicator_free. cbn [existsb]. now rewrite messageDiv_no_indicator.
    + unfold sendPrompt_settled, sendPrompt_fetched.
      destruct r as [message | status]; [reflexivity |].
      destruct (ok status); cbn [negb]; [| reflexivity].
      unfold sendPrompt_parsed. destruct d as [message | data]; [reflexivity |].
      destruct (negb _); reflexivity.
  - intros id r j. cbn zeta. rewrite (loadConversation_starts id p H). cbn [fst].
    destruct (loadConversation_settled_fields r j
                (mkPage [messageDiv model "Started a new chat."]
                   (map (fun l => toggle_active (dataset_is l (Some id)) l)
                      (historyList p))
                   (promptInput_value p) true (promptInput_focused p) true
                   (Some id) true) eq_refl) as [[_ Hi] Hs].
    now split.
Qed.

Lemma loading_state_always_cleared_witness :
  isLoading idle_page = false /\
  indicator_free (chatOutput idle_page) /\
  trim (promptInput_value idle_page) <> "" /\
  interactive (fst (sendPrompt_settled (Rejected "Failed to fetch")
                      (Json None) (Json (mkReply "" None))
                      (fst (sendPrompt idle_page)))) /\
  interactive (fst (loadConversation_settled (Resolved 503)
                      (JsonRejected "Unexpected end of JSON input")
                      (fst (loadConversation "c1" idle_page)))).
Proof.
  split; [reflexivity |]. split; [reflexivity |].
  split; [vm_compute; discriminate |].
  destruct (loading_state_always_cleared idle_page eq_refl eq_refl) as [Hs Hl].
  split.
  - apply Hs. vm_compute; discriminate.
  - apply Hl.
Defined.

(** ** The history panel *)

Lemma loadHistoryList_settled_fields (r : fetch_result)
  (j : json_result (list ConversationSummary)) (p : page) :
  loadHistoryList_settled r j p
  = (with_historyList (rendered r j (currentConversationId p)) p, []).
Proof.
  unfold loadHistoryList_settled, loadHistoryList_fetched, rendered.
  destruct r as [message | status]; [reflexivity |].
  destruct (ok status); cbn [negb]; [| reflexivity].
  unfold loadHistoryList_parsed.
  destruct j as [message | [| c convs]]; try reflexivity.
  cbn [length Nat.eqb]. now rewrite render_history.
Qed.

(** C7: for a fixed answer of the backend (the fetch result and the
    parsed body) and a fixed [currentConversationId], a second
    [loadHistoryList] leaves the page exactly as the first did: the same
    items in the same order with the same one marked active.  The same
    holds when the second call starts before the first has settled. *)
Theorem loadHistoryList_idempotent (r : fetch_result)
  (j : json_result (list ConversationSummary)) (p : page) :
  historyList (refresh r j p) = rendered r j (currentConversationId p) /\
  currentConversationId (refresh r j p) = currentConversationId p /\
  refresh r j (refresh r j p) = refresh r j p /\
  fst (loadHistoryList_settled r j
         (fst (loadHistoryList_settled r j
                 (fst (loadHistoryList (fst (loadHistoryList p)))))))
  = refresh r j p.
Proof.
  unfold refresh.
  repeat (rewrite loadHistoryList_settled_fields || cbn [fst loadHistoryList]).
  repeat split.
Qed.

(** ** A send and the history panel *)

(** C10: when a send succeeds and the id the server returns equals
    [currentConversationId], the history panel is left as it was and the
    settled send issues no request; when the id differs, and only then,
    the send issues the one request that refetches the history. *)
Theorem history_refreshed_only_on_new_id (p : page) (status : nat)
  (e : json_result (option string)) (data : ChatReply) :
  isLoading p = false ->
  trim (promptInput_value p) <> "" ->
  ok status = true ->
  let start := sendPrompt p in
  let res := sendPrompt_settled (Resolved status) e (Json data) (fst start) in
  historyList (fst start) = historyList p /\
  requests_of (snd start)
  = [POST_chat (trim (promptInput_value p)) (currentConversationId p)] /\
  (conversation_id data = currentConversationId p ->
   historyList (fst res) = historyList p /\
   currentConversationId (fst res) = currentConversationId p /\
   snd res = [] /\ requests_of (snd res) = []) /\
  (conversation_id data <> currentConversationId p ->
   requests_of (snd res) = [GET_history]).
Proof.
  intros H Hne Hok. cbn zeta. rewrite (sendPrompt_starts p H Hne).
  cbn [fst snd]. split; [reflexivity |]. split; [reflexivity |].
  match goal with
  | |- context [sendPrompt_settled _ e _ ?q] =>
      pose proof (sendPrompt_settled_history status e data q Hok) as Hh
  end.
  cbn zeta in Hh. cbn [currentConversationId] in Hh. split.
  - intros E. symmetry in E. apply id_eqb_eq in E. rewrite E in Hh.
    destruct Hh as [Hl [Hc Hs]]. rewrite Hs. now repeat split.
  - intros E.
    assert (E' : id_eqb (currentConversationId p) (conversation_id data) = false).
    { apply id_eqb_neq. congruence. }
    rewrite E' in Hh. destruct Hh as [_ [_ Hs]]. now rewrite Hs.
Qed.

Lemma history_refreshed_only_on_new_id_witness :
  isLoading idle_page = false /\
  trim (promptInput_value idle_page) <> "" /\
  ok 200 = true /\
  historyList (fst (sendPrompt_settled (Resolved 200) (Json None)
                      (Json (mkReply "sure" (Some "c2")))
                      (fst (sendPrompt idle_page))))
  = historyList idle_page.
Proof.
  split; [reflexivity |]. split; [vm_compute; discriminate |].
  split; [reflexivity |].
  refine (proj1 (proj1 (proj2 (proj2
    (history_refreshed_only_on_new_id idle_page 200 (Json None)
       (mkReply "sure" (Some "c2")) eq_refl _ eq_refl))) eq_refl)).
  vm_compute; discriminate.
Defined.



(** ** The isLoading guard *)

Lemma count_app (f : task -> bool) (a b : list task) :
  count f (a ++ b) = count f a + count f b.
Proof. unfold count. now rewrite filter_app, length_app. Qed.

Lemma count_nth (f : task -> bool) (l : list task) (n : nat) (t : task) :
  nth_error l n = Some t ->
  count f l = (if f t then 1 else 0) + count f (firstn n l ++ skipn (S n) l).
Proof.
  revert n. induction l as [|x l IH]; intros [|n] H; try discriminate.
  - injection H as ->. unfold count. simpl. destruct (f t); reflexivity.
  - apply IH with (n := n) in H.
    change (firstn (S n) (x :: l) ++ skipn (S (S n)) (x :: l))
      with (x :: (firstn n l ++ skipn (S n) l)).
    unfold count in *. cbn [filter]. destruct (f x); cbn [length]; lia.
Qed.

Lemma count_to_chat_le (l : list task) : count to_chat l <= count guarded l.
Proof.
  unfold count. induction l as [|t l IH]; simpl; [lia |].
  destruct t; simpl; lia.
Qed.

Lemma sendPrompt_guard (p : page) :
  (if isLoading (fst (sendPrompt p)) then 1 else 0)
  = (if isLoading p then 1 else 0) + count guarded (snd (sendPrompt p)).
Proof.
  unfold sendPrompt.
  destruct (String.eqb (trim (promptInput_value p)) ""); simpl;
    destruct (isLoading p) eqn:E; simpl; rewrite ?E; reflexivity.
Qed.

Lemma loadConversation_guard (id : string) (p : page) :
  (if isLoading (fst (loadConversation id p)) then 1 else 0)
  = (if isLoading p then 1 else 0) + count guarded (snd (loadConversation id p)).
Proof.
  unfold loadConversation.
  destruct (isLoading p) eqn:E; simpl; rewrite ?E; reflexivity.
Qed.

Lemma startNewChat_guard (p : page) :
  isLoading (startNewChat p) = isLoading p.
Proof.
  unfold startNewChat. destruct (isLoading p) eqn:E; [exact E |].
  unfold focus. simpl. destruct (promptInput_disabled p); exact E.
Qed.

Lemma resume_guard (t : task) (s : settlement) (p : page) (r : page * list task) :
  resume t s p = Some r ->
  if guarded t then
    isLoading p = true ->
    (if isLoading (fst r) then 1 else 0) = count guarded (snd r)
  else
    isLoading (fst r) = isLoading p /\ count guarded (snd r) = 0.
Proof.
  destruct t, s; simpl; intros H; try discriminate; injection H as <-.
  - (* loadHistoryList, fetched *)
    unfold loadHistoryList_fetched. destruct r0 as [m | status]; [now split |].
    destruct (ok status); now split.
  - (* loadHistoryList, parsed *)
    unfold loadHistoryList_parsed. destruct j as [m | convs]; [now split |].
    destruct (Nat.eqb (length convs) 0); [now split |].
    rewrite render_history. now split.
  - (* loadConversation, fetched *)
    intros Hl. unfold loadConversation_fetched. destruct r0 as [m | status];
      [reflexivity |].
    destruct (ok status); simpl; [now rewrite Hl |].
    destruct (Nat.eqb status 404); reflexivity.
  - (* loadConversation, parsed *)
    intros _. unfold loadConversation_parsed. destruct j; reflexivity.
  - (* sendPrompt, fetched *)
    intros Hl. unfold sendPrompt_fetched. destruct r0 as [m | status];
      [reflexivity |].
    destruct (ok status); simpl; now rewrite Hl.
  - (* sendPrompt, error body *)
    intros _. reflexivity.
  - (* sendPrompt, parsed *)
    intros _. unfold sendPrompt_parsed. destruct j as [m | data]; [reflexivity |].
    destruct (negb _); reflexivity.
Qed.

Lemma guard_holds_commit (w : world) (r : page * list task) :
  guard_holds w ->
  (if isLoading (fst r) then 1 else 0)
  = (if isLoading (doc w) then 1 else 0) + count guarded (snd r) ->
  guard_holds (commit (pending w) (sent w) r).
Proof.
  unfold guard_holds, commit. simpl. intros Hw Hr.
  rewrite count_app, Hw. lia.
Qed.

Lemma guard_holds_dispatch (w : world) (e : event) :
  guard_holds w -> guard_holds (dispatch w e).
Proof.
  intros Hw. destruct e as [| key shift | | n | value | n s]; cbn [dispatch].
  - apply guard_holds_commit; [assumption | apply sendPrompt_guard].
  - destruct (String.eqb key "Enter" && negb shift); [| assumption].
    apply guard_holds_commit; [assumption | apply sendPrompt_guard].
  - apply guard_holds_commit; [assumption |]. simpl.
    rewrite startNewChat_guard. unfold count. simpl. lia.
  - destruct (nth_error (historyList (doc w)) n) as [l |]; [| assumption].
    destruct (li_click l) as [id |]; [| assumption].
    apply guard_holds_commit; [assumption | apply loadConversation_guard].
  - exact Hw.
  - destruct (nth_error (pending w) n) as [t |] eqn:Ht; [| assumption].
    destruct (resume t s (doc w)) as [r |] eqn:Hr; [| assumption].
    pose proof (count_nth guarded _ _ _ Ht) as Hc.
    pose proof (resume_guard _ _ _ _ Hr) as Hg.
    unfold guard_holds in *. unfold commit. cbn [doc pending].
    rewrite count_app. rewrite Hw in Hc.
    destruct (guarded t).
    + destruct (isLoading (doc w)); [| lia].
      rewrite <- (Hg eq_refl). lia.
    + destruct Hg as [-> ->]. lia.
Qed.

Lemma guard_holds_run (es : list event) (w : world) :
  guard_holds w -> guard_holds (run w es).
Proof.
  revert w. induction es as [|e es IH]; intros w Hw; simpl; [assumption |].
  apply IH, guard_holds_dispatch, Hw.
Qed.

Lemma guard_holds_DOMContentLoaded (chat : list node) (history : list li)
  (value : string) : guard_holds (DOMContentLoaded chat history value).
Proof. reflexivity. Qed.

(** C3: while [isLoading] is true, [sendPrompt], [loadConversation] and
    [startNewChat] return the page as it is (transcript, prompt,
    [currentConversationId] and history panel included) and start
    nothing, so the click or key press that invoked them leaves the
    pending calls and the requests sent as they were; and in every state
    the page reaches from its load, under any events and settlements, at
    most one call of [sendPrompt] is suspended on the chat endpoint. *)
Theorem busy_calls_are_ignored :
  (forall w, isLoading (doc w) = true ->
     sendPrompt (doc w) = (doc w, []) /\
     (forall id, loadConversation id (doc w) = (doc w, [])) /\
     startNewChat (doc w) = doc w /\
     dispatch w Click_send = w /\
     dispatch w (Keypress "Enter" false) = w /\
     dispatch w Click_newChat = w /\
     (forall n, dispatch w (Click_li n) = w)) /\
  (forall chat history value es,
     let w := run (DOMContentLoaded chat history value) es in
     count to_chat (pending w) <= 1 /\
     (isLoading (doc w) = false -> count to_chat (pending w) = 0)).
Proof.
  split.
  - intros [p ts rs] H. simpl in H.
    assert (Hs : sendPrompt p = (p, [])).
    { unfold sendPrompt. rewrite H. now rewrite orb_true_r. }
    assert (Hc : forall id, loadConversation id p = (p, [])).
    { intros id. unfold loadConversation. now rewrite H. }
    assert (Hn : startNewChat p = p).
    { unfold startNewChat. now rewrite H. }
    assert (Hw : commit ts rs (p, []) = mkWorld p ts rs).
    { unfold commit. simpl. now rewrite !app_nil_r. }
    repeat split; try assumption; simpl; rewrite ?Hs, ?Hn; try exact Hw.
    intros n. destruct (nth_error (historyList p) n) as [l |]; [| reflexivity].
    destruct (li_click l) as [id |]; [| reflexivity].
    rewrite Hc. exact Hw.
  - intros chat history value es w.
    pose proof (guard_holds_run es _
                  (guard_holds_DOMContentLoaded chat history value)) as Hg.
    fold w in Hg. unfold guard_holds in Hg.
    pose proof (count_to_chat_le (pending w)) as Hle.
    split.
    + destruct (isLoading (doc w)); lia.
    + intros Hl. rewrite Hl in Hg. lia.
Qed.

Lemma busy_calls_are_ignored_witness :
  isLoading (doc busy_world) = true /\
  dispatch busy_world Click_send = busy_world /\
  dispatch busy_world Click_newChat = busy_world.
Proof.
  split; [reflexivity |].
  destruct (proj1 busy_calls_are_ignored busy_world eq_refl)
    as [_ [_ [_ [Hs [_ [Hn _]]]]]].
  split; assumption.
Defined.

(** ** The loading indicator

    The theorems on a send and on the loading state ask for a transcript
    without the indicator.  Every page that is not loading has one, as
    long as the static markup does. *)

Lemma at_most_one_app (c more : list node) :
  at_most_one_indicator c -> indicator_free more ->
  at_most_one_indicator (c ++ more).
Proof.
  intros [Hc | [before [after [-> [Hb Ha]]]]] Hm.
  - left. now apply indicator_free_app.
  - right. exists before, (after ++ more). rewrite <- app_assoc.
    repeat split; try assumption. now apply indicator_free_app.
Qed.

Lemma at_most_one_removed (c : list node) :
  at_most_one_indicator c ->
  indicator_free (remove_by_id "loading-indicator" c).
Proof.
  intros [Hc | [before [after [-> [Hb Ha]]]]].
  - now rewrite remove_by_id_absent.
  - rewrite remove_by_id_first by (assumption || reflexivity).
    now apply indicator_free_app.
Qed.

Lemma indicator_free_message (r : role) (text : string) :
  indicator_free [messageDiv r text].
Proof.
  unfold indicator_free. cbn [existsb]. now rewrite messageDiv_no_indicator.
Qed.

Lemma tidy_free (p : page) : indicator_free (chatOutput p) -> tidy p.
Proof. intros H. split; [now left | now intros _]. Qed.

Lemma tidy_frame (p q : page) :
  chatOutput q = chatOutput p -> isLoading q = isLoading p ->
  tidy p -> tidy q.
Proof. unfold tidy. now intros -> ->. Qed.

Lemma tidy_ended (p : page) (r : role) (text : string) :
  tidy p ->
  indicator_free
    (remove_by_id "loading-indicator" (chatOutput p ++ [messageDiv r text])).
Proof.
  intros [H _]. apply at_most_one_removed, at_most_one_app; [assumption |].
  apply indicator_free_message.
Qed.

Lemma tidy_resume (t : task) (s : settlement) (p : page)
  (r : page * list task) :
  resume t s p = Some r -> tidy p -> tidy (fst r).
Proof.
  destruct t, s; simpl; intros H Hp; try discriminate; injection H as <-.
  - unfold loadHistoryList_fetched. destruct r0 as [m | status];
      [exact Hp |]. destruct (ok status); exact Hp.
  - unfold loadHistoryList_parsed. destruct j as [m | convs]; [exact Hp |].
    destruct (Nat.eqb (length convs) 0); [exact Hp |].
    rewrite render_history. exact Hp.
  - unfold loadConversation_fetched. destruct r0 as [m | status].
    + apply tidy_free, tidy_ended, Hp.
    + destruct (ok status); cbn [negb fst]; [exact Hp |].
      destruct (Nat.eqb status 404); apply tidy_free, tidy_ended, Hp.
  - unfold loadConversation_parsed. destruct j as [m | messages].
    + apply tidy_free, tidy_ended, Hp.
    + cbn [fst]. rewrite render_messages. apply tidy_free.
      apply at_most_one_removed, at_most_one_app; [apply Hp |].
      apply indicator_free_messages.
  - unfold sendPrompt_fetched. destruct r0 as [m | status].
    + apply tidy_free. cbn [fst]. rewrite sendPrompt_finally_fields.
      cbn [chatOutput sendPrompt_catch addMessage with_chatOutput].
      apply at_most_one_removed. left. apply indicator_free_app;
        [| apply indicator_free_message].
      apply at_most_one_removed, Hp.
    + assert (Hr : tidy (removeLoadingIndicator p)).
      { apply tidy_free, at_most_one_removed, Hp. }
      destruct (ok status); exact Hr.
  - apply tidy_free. cbn [fst sendPrompt_error_parsed].
    rewrite sendPrompt_finally_fields.
    cbn [chatOutput sendPrompt_catch addMessage with_chatOutput].
    apply at_most_one_removed. left. apply indicator_free_app;
      [| apply indicator_free_message].
    apply at_most_one_removed, Hp.
  - unfold sendPrompt_parsed. destruct j as [m | data].
    + apply tidy_free. cbn [fst]. rewrite sendPrompt_finally_fields.
      cbn [chatOutput sendPrompt_catch addMessage with_chatOutput].
      apply at_most_one_removed. left. apply indicator_free_app;
        [| apply indicator_free_message].
      apply at_most_one_removed, Hp.
    + destruct (negb _); apply tidy_free, tidy_ended, Hp.
Qed.

Lemma tidy_dispatch (w : world) (e : event) :
  tidy (doc w) -> tidy (doc (dispatch w e)).
Proof.
  intros Hp.
  assert (Hs : tidy (fst (sendPrompt (doc w)))).
  { unfold sendPrompt.
    destruct (String.eqb (trim (promptInput_value (doc w))) "" || isLoading (doc w))
      eqn:E; [exact Hp |].
    apply orb_false_iff in E as [_ E]. split; [| discriminate].
    right. exists (chatOutput (doc w)), [messageDiv user (trim (promptInput_value (doc w)))].
    split; [cbn; now rewrite <- app_assoc |].
    split; [now apply Hp | apply indicator_free_message]. }
  destruct e as [| key shift | | n | value | n s]; cbn [dispatch].
  - exact Hs.
  - destruct (String.eqb key "Enter" && negb shift); assumption.
  - cbn [commit doc fst]. unfold startNewChat.
    destruct (isLoading (doc w)); [exact Hp |].
    apply tidy_free. unfold focus. cbn.
    destruct (promptInput_disabled (doc w)); apply indicator_free_message.
  - destruct (nth_error (historyList (doc w)) n) as [l |]; [| assumption].
    destruct (li_click l) as [id |]; [| assumption].
    cbn [commit doc]. unfold loadConversation.
    destruct (isLoading (doc w)); [exact Hp |].
    apply tidy_free, indicator_free_message.
  - exact Hp.
  - destruct (nth_error (pending w) n) as [t |]; [| assumption].
    destruct (resume t s (doc w)) as [r |] eqn:Hr; [| assumption].
    exact (tidy_resume _ _ _ _ Hr Hp).
Qed.

(** From its load on, whenever the page is not loading its transcript
    holds no indicator. *)
Lemma idle_pages_have_no_indicator (chat : list node) (history : list li)
  (value : string) (es : list event) :
  indicator_free chat ->
  let w := run (DOMContentLoaded chat history value) es in
  isLoading (doc w) = false -> indicator_free (chatOutput (doc w)).
Proof.
  intros Hc.
  assert (H : tidy (doc (DOMContentLoaded chat history value))).
  { apply tidy_free. exact Hc. }
  generalize dependent (DOMContentLoaded chat history value).
  induction es as [|e es IH]; intros w Hw; cbn [run fold_left].
  - apply Hw.
  - apply IH, tidy_dispatch, Hw.
Qed.

(** * Further properties of the script *)

(** ** loadConversation *)

Lemma textContent_messageDiv (r : role) (text : string) :
  textContent (messageDiv r text) = role_label r +++ " " +++ text.
Proof.
  unfold messageDiv. destruct r; simpl; now rewrite append_empty_r.
Qed.

Lemma remove_by_id_messages (first : node) (msgs : list Message) :
  mentions_id "loading-indicator" first = false ->
  remove_by_id "loading-indicator"
    (first :: map (fun m => messageDiv (msg_role m) (msg_text m)) msgs)
  = first :: map (fun m => messageDiv (msg_role m) (msg_text m)) msgs.
Proof.
  intros H. apply remove_by_id_absent. cbn [existsb]. rewrite H.
  apply indicator_free_messages.
Qed.

(** X1: a conversation that loads (a 2xx whose body parses) replaces the
    transcript: the placeholder first, then one message per entry of the
    backend's array, in its order, each reading label, space, text;
    nothing of the former transcript stays.  The page ends interactive,
    on the requested id, with the call over. *)
Theorem loadConversation_renders_messages (id : string) (p : page)
  (status : nat) (msgs : list Message) :
  isLoading p = false ->
  ok status = true ->
  let res := loadConversation_settled (Resolved status) (Json msgs)
               (fst (loadConversation id p)) in
  chatOutput (fst res)
  = messageDiv model "Started a new chat."
      :: map (fun m => messageDiv (msg_role m) (msg_text m)) msgs /\
  map textContent (chatOutput (fst res))
  = "Model: Started a new chat." :: map message_text msgs /\
  currentConversationId (fst res) = Some id /\
  interactive (fst res) /\
  snd res = [].
Proof.
  intros H Hok. cbn zeta. rewrite (loadConversation_starts id p H). cbn [fst].
  unfold loadConversation_settled, loadConversation_fetched. rewrite Hok.
  cbn [negb]. unfold loadConversation_parsed. rewrite render_messages.
  rewrite loadConversation_finally_fields.
  cbn [fst snd chatOutput with_chatOutput currentConversationId app].
  rewrite remove_by_id_messages by reflexivity.
  split; [reflexivity |]. split.
  - cbn [map]. f_equal. rewrite map_map. apply map_ext. intros m.
    apply textContent_messageDiv.
  - repeat split. unfold indicator_free. cbn [chatOutput existsb].
    rewrite messageDiv_no_indicator. apply indicator_free_messages.
Qed.

Lemma loadConversation_renders_messages_witness :
  isLoading idle_page = false /\ ok 200 = true /\
  map textContent
    (chatOutput (fst (loadConversation_settled (Resolved 200)
                        (Json [mkMessage user "2+2?"; mkMessage model "4"])
                        (fst (loadConversation "c1" idle_page)))))
  = ["Model: Started a new chat."; "You: 2+2?"; "Model: 4"].
Proof.
  split; [reflexivity |]. split; [reflexivity |].
  exact (proj1 (proj2 (loadConversation_renders_messages "c1" idle_page 200
                         [mkMessage user "2+2?"; mkMessage model "4"]
                         eq_refl eq_refl))).
Defined.



(** X3: when a load starts on a page that is not loading, the history
    panel keeps its items in place and marks active exactly those whose
    conversation id is the requested one; the current id is already the
    requested one; and, the transcript having been cleared after the
    indicator was added, no loading indicator shows while the
    conversation loads, though the controls are disabled. *)
Theorem loadConversation_marks_the_item (id : string) (p : page) :
  isLoading p = false ->
  let p' := fst (loadConversation id p) in
  length (historyList p') = length (historyList p) /\
  (forall n l, nth_error (historyList p) n = Some l ->
     exists l',
       nth_error (historyList p') n = Some l' /\
       li_textContent l' = li_textContent l /\
       li_conversationId l' = li_conversationId l /\
       li_title l' = li_title l /\
       li_click l' = li_click l /\
       (li_active l' = true <-> li_conversationId l = Some id)) /\
  currentConversationId p' = Some id /\
  isLoading p' = true /\
  sendButton_disabled p' = true /\ promptInput_disabled p' = true /\
  indicator_free (chatOutput p') /\
  requests_of (snd (loadConversation id p)) = [GET_conversation id].
Proof.
  intros H. cbn zeta. rewrite (loadConversation_starts id p H).
  cbn [fst snd historyList]. split; [apply length_map |]. split.
  - intros n l Hn.
    exists (toggle_active (dataset_is l (Some id)) l). split.
    + now rewrite nth_error_map, Hn.
    + repeat split; cbn [toggle_active li_active]; unfold dataset_is.
      * destruct (li_conversationId l) as [c |]; [| discriminate].
        intros E. apply String.eqb_eq in E. now subst.
      * intros ->. apply String.eqb_refl.
  - repeat split.
Qed.

Lemma loadConversation_marks_the_item_witness :
  isLoading idle_page = false /\
  length (historyList (fst (loadConversation "c1" idle_page)))
  = length (historyList idle_page) /\
  indicator_free (chatOutput (fst (loadConversation "c1" idle_page))).
Proof.
  split; [reflexivity |].
  destruct (loadConversation_marks_the_item "c1" idle_page eq_refl)
    as [Hlen [_ [_ [_ [_ [_ [Hfree _]]]]]]].
  split; assumption.
Defined.

(** ** loadHistoryList *)

Lemma refresh_fields (r : fetch_result)
  (j : json_result (list ConversationSummary)) (p : page) :
  refresh r j p = with_historyList (rendered r j (currentConversationId p)) p.
Proof.
  unfold refresh. rewrite loadHistoryList_settled_fields. reflexivity.
Qed.

(** X4: a history that arrives with at least one conversation is shown
    as one item per conversation, in the backend's order: the item's text
    is the summary, its tooltip [ID: <id>], a line break,
    [Last Modified: <last_modified>], its data attribute and its click
    listener carry the id, and it is active exactly when its id is the
    current one. *)
Theorem loadHistoryList_renders_conversations (p : page) (status : nat)
  (convs : list ConversationSummary) :
  ok status = true ->
  convs <> [] ->
  let p' := refresh (Resolved status) (Json convs) p in
  map li_textContent (historyList p') = map conv_summary convs /\
  map li_conversationId (historyList p')
  = map (fun c => Some (conv_id c)) convs /\
  map li_click (historyList p') = map (fun c => Some (conv_id c)) convs /\
  map li_title (historyList p')
  = map (fun c => "ID: " +++ conv_id c +++ newline +++ "Last Modified: "
                    +++ conv_last_modified c) convs /\
  map li_active (historyList p')
  = map (fun c => id_eqb (Some (conv_id c)) (currentConversationId p)) convs /\
  forall l, In l (historyList p') ->
    (li_active l = true <-> li_conversationId l = currentConversationId p).
Proof.
  intros Hok Hne. cbn zeta. rewrite refresh_fields. unfold rendered.
  rewrite Hok. destruct convs as [| c convs]; [contradiction |].
  change (historyList (with_historyList ?h _)) with h.
  rewrite !map_map. repeat split; try reflexivity.
  - intros Ha. apply in_map_iff in H as [conv [<- _]].
    cbn [history_li li_active li_conversationId] in *.
    now apply id_eqb_eq in Ha.
  - intros Ha. apply in_map_iff in H as [conv [<- _]].
    cbn [history_li li_active li_conversationId] in *.
    now apply id_eqb_eq.
Qed.

Lemma loadHistoryList_renders_conversations_witness :
  ok 200 = true /\
  [mkSummary "a" "first chat" "May 1"; mkSummary "c2" "second" "May 2"] <> [] /\
  map li_textContent
    (historyList (refresh (Resolved 200)
                    (Json [mkSummary "a" "first chat" "May 1";
                           mkSummary "c2" "second" "May 2"]) idle_page))
  = ["first chat"; "second"].
Proof.
  split; [reflexivity |]. split; [discriminate |].
  exact (proj1 (loadHistoryList_renders_conversations idle_page 200
                  [mkSummary "a" "first chat" "May 1";
                   mkSummary "c2" "second" "May 2"]
                  eq_refl ltac:(discriminate))).
Defined.

Lemma at_most_one_match (current : option string)
  (convs : list ConversationSummary) :
  NoDup (map conv_id convs) ->
  length (filter li_active (map (history_li current) convs)) <= 1.
Proof.
  induction convs as [| c convs IH]; intros Hnd; [cbn; lia |].
  cbn [map] in Hnd. apply NoDup_cons_iff in Hnd as [Hnotin Hnd].
  cbn [map filter history_li li_active].
  destruct (id_eqb (Some (conv_id c)) current) eqn:E; [| now apply IH].
  apply id_eqb_eq in E. cbn [length].
  assert (Hnone : filter li_active (map (history_li current) convs) = []).
  { clear IH Hnd. induction convs as [| c' convs IH]; [reflexivity |].
    cbn [map filter history_li li_active].
    destruct (id_eqb (Some (conv_id c')) current) eqn:E'.
    - apply id_eqb_eq in E'. exfalso. apply Hnotin. left.
      rewrite <- E in E'. now injection E'.
    - apply IH. intros Hin. apply Hnotin. now right. }
  rewrite Hnone. cbn. lia.
Qed.

(** X5: when the ids of the backend's conversations are pairwise
    distinct, a refreshed panel has at most one active item, whatever the
    request's outcome. *)
Theorem loadHistoryList_one_active_item (r : fetch_result)
  (convs : list ConversationSummary) (p : page) :
  NoDup (map conv_id convs) ->
  length (filter li_active (historyList (refresh r (Json convs) p))) <= 1.
Proof.
  intros Hnd. rewrite refresh_fields. unfold rendered.
  change (historyList (with_historyList ?h _)) with h.
  destruct r as [m | status]; [cbn; lia |].
  destruct (ok status); [| cbn; lia].
  destruct convs as [| c convs]; [cbn; lia |].
  now apply at_most_one_match.
Qed.

Lemma loadHistoryList_one_active_item_witness :
  NoDup (map conv_id [mkSummary "a" "first chat" "May 1";
                      mkSummary "c2" "second" "May 2"]) /\
  length (filter li_active
            (historyList (refresh (Resolved 200)
                            (Json [mkSummary "a" "first chat" "May 1";
                                   mkSummary "c2" "second" "May 2"])
                            idle_page))) <= 1.
Proof.
  assert (H : NoDup (map conv_id [mkSummary "a" "first chat" "May 1";
                                  mkSummary "c2" "second" "May 2"])).
  { cbn. repeat constructor; cbn; intuition discriminate. }
  split; [exact H |].
  exact (loadHistoryList_one_active_item (Resolved 200) _ idle_page H).
Defined.

(** X6: a history request that fails (the fetch rejects, the status is
    not 2xx, or the body is not JSON) leaves the panel with the single
    item [Error loading history.]; one that delivers an empty array
    leaves the single item [No past conversations found.]; either way a
    click on any position of the panel does nothing. *)
Theorem loadHistoryList_placeholders (r : fetch_result)
  (j : json_result (list ConversationSummary)) (w : world) :
  (delivered r j = None ->
   historyList (refresh r j (doc w)) = [plain_li "Error loading history."]) /\
  (delivered r j = Some [] ->
   historyList (refresh r j (doc w))
   = [plain_li "No past conversations found."]) /\
  (delivered r j = None \/ delivered r j = Some [] ->
   forall n,
     dispatch (with_doc (refresh r j (doc w)) w) (Click_li n)
     = with_doc (refresh r j (doc w)) w).
Proof.
  rewrite refresh_fields. unfold rendered, delivered.
  change (historyList (with_historyList ?h _)) with h.
  assert (Hclick : forall text q n,
    dispatch (with_doc (with_historyList [plain_li text] q) w) (Click_li n)
    = with_doc (with_historyList [plain_li text] q) w).
  { intros text q [| [| n]]; reflexivity. }
  destruct r as [m | status].
  - repeat split; try discriminate. intros _. apply Hclick.
  - destruct (ok status).
    + destruct j as [m | [| c convs]]; repeat split; try discriminate;
        try (intros _; apply Hclick).
      intros [H | H]; discriminate H.
    + destruct j; repeat split; try discriminate; intros _; apply Hclick.
Qed.

Lemma loadHistoryList_placeholders_witness :
  delivered (Resolved 502) (Json [mkSummary "a" "first chat" "May 1"]) = None /\
  historyList (refresh (Resolved 502) (Json [mkSummary "a" "first chat" "May 1"])
                 idle_page)
  = [plain_li "Error loading history."].
Proof.
  split; [reflexivity |].
  exact (proj1 (loadHistoryList_placeholders (Resolved 502)
                  (Json [mkSummary "a" "first chat" "May 1"])
                  (mkWorld idle_page [] [])) eq_refl).
Defined.

(** X7: a history refresh changes the history panel and nothing else:
    when it starts (sending its one request) and whenever one of its two
    awaits settles, with any outcome and on any page (also one where a
    send or a load is under way), the transcript, the prompt, the
    controls, the current id and the loading flag stay as they are, and
    no further request goes out. *)
Theorem loadHistoryList_touches_only_the_panel (p : page) :
  (fst (loadHistoryList p)
   = with_historyList (historyList (fst (loadHistoryList p))) p /\
   requests_of (snd (loadHistoryList p)) = [GET_history]) /\
  (forall t s r,
     guarded t = false ->
     resume t s p = Some r ->
     fst r = with_historyList (historyList (fst r)) p /\
     requests_of (snd r) = [] /\
     count guarded (snd r) = 0).
Proof.
  assert (Hid : forall q : page, q = with_historyList (historyList q) q).
  { now intros []. }
  split; [split; reflexivity |].
  intros t s r Hg Hr. destruct t; try discriminate Hg;
    destruct s; try discriminate Hr; injection Hr as <-.
  - unfold loadHistoryList_fetched. destruct r0 as [m | status].
    + repeat split.
    + destruct (ok status); cbn [negb fst snd]; repeat split. apply Hid.
  - unfold loadHistoryList_parsed. destruct j as [m | convs].
    + repeat split.
    + destruct (Nat.eqb (length convs) 0); [repeat split |].
      rewrite render_history. repeat split.
Qed.

Lemma loadHistoryList_touches_only_the_panel_witness :
  guarded HistoryFetch = false /\
  resume HistoryFetch (Fetched (Rejected "Failed to fetch")) idle_page
  = Some (loadHistoryList_fetched (Rejected "Failed to fetch") idle_page) /\
  requests_of (snd (loadHistoryList_fetched (Rejected "Failed to fetch") idle_page))
  = [].
Proof.
  split; [reflexivity |]. split; [reflexivity |].
  exact (proj1 (proj2 (proj2 (loadHistoryList_touches_only_the_panel idle_page)
                         HistoryFetch (Fetched (Rejected "Failed to fetch")) _
                         eq_refl eq_refl))).
Defined.

(** X8: on a page that is not loading, a click on the n-th item of a
    history just rendered loads the n-th conversation of the backend's
    array: the request for that conversation's id goes out, the id
    becomes the current one, and the items marked active are exactly
    those of that id, the clicked one among them. *)
Theorem clicking_an_item_loads_its_conversation (w : world) (status : nat)
  (convs : list ConversationSummary) (n : nat) (conv : ConversationSummary) :
  isLoading (doc w) = false ->
  ok status = true ->
  nth_error convs n = Some conv ->
  let w' := dispatch (with_doc (refresh (Resolved status) (Json convs) (doc w)) w)
              (Click_li n) in
  sent w' = sent w ++ [GET_conversation (conv_id conv)] /\
  pending w' = pending w ++ [ConversationFetch (conv_id conv)] /\
  currentConversationId (doc w') = Some (conv_id conv) /\
  isLoading (doc w') = true /\
  map li_active (historyList (doc w'))
  = map (fun c => String.eqb (conv_id c) (conv_id conv)) convs /\
  (exists l, nth_error (historyList (doc w')) n = Some l /\ li_active l = true).
Proof.
  intros H Hok Hn. cbn zeta. rewrite refresh_fields. unfold rendered.
  rewrite Hok. destruct convs as [| c convs]; [destruct n; discriminate |].
  set (cs := c :: convs) in *.
  cbn [dispatch with_doc doc historyList with_historyList].
  rewrite nth_error_map, Hn. cbn [option_map history_li li_click].
  rewrite loadConversation_starts by exact H.
  cbn [commit fst snd doc pending sent requests_of flat_map request_of
         currentConversationId isLoading historyList app].
  change (historyList (with_historyList ?h _)) with h.
  rewrite !map_map.
  cbn [toggle_active li_active dataset_is history_li li_conversationId].
  do 5 (split; [reflexivity |]).
  rewrite !nth_error_map, Hn. cbn [option_map].
  eexists. split; [reflexivity |].
  cbn [li_active dataset_is history_li li_conversationId].
  apply String.eqb_refl.
Qed.

Lemma clicking_an_item_loads_its_conversation_witness :
  isLoading idle_page = false /\ ok 200 = true /\
  nth_error [mkSummary "a" "first chat" "May 1"; mkSummary "c2" "second" "May 2"] 1
  = Some (mkSummary "c2" "second" "May 2") /\
  sent (dispatch
          (with_doc (refresh (Resolved 200)
                       (Json [mkSummary "a" "first chat" "May 1";
                              mkSummary "c2" "second" "May 2"]) idle_page)
             (mkWorld idle_page [] [GET_history]))
          (Click_li 1))
  = [GET_history] ++ [GET_conversation "c2"].
Proof.
  split; [reflexivity |]. split; [reflexivity |]. split; [reflexivity |].
  exact (proj1 (clicking_an_item_loads_its_conversation
                  (mkWorld idle_page [] [GET_history]) 200
                  [mkSummary "a" "first chat" "May 1";
                   mkSummary "c2" "second" "May 2"] 1
                  (mkSummary "c2" "second" "May 2") eq_refl eq_refl eq_refl)).
Defined.

(** ** sendPrompt and what follows it *)

Lemma sendPrompt_settled_state (r : fetch_result)
  (e : json_result (option string)) (d : json_result ChatReply) (p : page) :
  let res := sendPrompt_settled r e d p in
  match succeeded r d with
  | Some data => currentConversationId (fst res) = conversation_id data
  | None =>
      currentConversationId (fst res) = currentConversationId p /\
      historyList (fst res) = historyList p /\
      snd res = []
  end /\
  promptInput_value (fst res) = promptInput_value p /\
  promptInput_focused (fst res) = true /\
  isLoading (fst res) = false.
Proof.
  unfold sendPrompt_settled, sendPrompt_fetched, succeeded.
  destruct r as [m | status]; [repeat split |].
  destruct (ok status); cbn [negb].
  - unfold sendPrompt_parsed. destruct d as [m | data]; [repeat split |].
    cbn [addMessage with_chatOutput removeLoadingIndicator
           currentConversationId].
    destruct (id_eqb (currentConversationId p) (conversation_id data)) eqn:E;
      cbn [negb]; repeat split.
    apply id_eqb_eq in E. exact E.
  - destruct d; repeat split.
Qed.

Lemma sendPrompt_posts (v : string) (p : page) :
  isLoading p = false -> trim v <> "" ->
  snd (sendPrompt (with_value v p))
  = [ChatFetch (trim v) (currentConversationId p)].
Proof.
  intros H Hne.
  now rewrite (sendPrompt_starts (with_value v p) H Hne).
Qed.

(** X9: a send that succeeded makes the next one continue the same
    conversation: whatever the user types next, the next send posts the
    conversation id that the reply carried. *)
Theorem next_send_continues_the_conversation (p : page) (r : fetch_result)
  (e : json_result (option string)) (d : json_result ChatReply)
  (data : ChatReply) (v : string) :
  isLoading p = false ->
  trim (promptInput_value p) <> "" ->
  succeeded r d = Some data ->
  trim v <> "" ->
  let p' := fst (sendPrompt_settled r e d (fst (sendPrompt p))) in
  requests_of (snd (sendPrompt (with_value v p')))
  = [POST_chat (trim v) (conversation_id data)].
Proof.
  intros H Hne Hs Hv. cbn zeta.
  pose proof (sendPrompt_settled_state r e d (fst (sendPrompt p))) as Hst.
  cbn zeta in Hst. rewrite Hs in Hst. destruct Hst as [Hid [_ [_ Hl]]].
  rewrite (sendPrompt_posts v _ Hl Hv), Hid. reflexivity.
Qed.

Lemma next_send_continues_the_conversation_witness :
  isLoading fresh_page = false /\
  trim (promptInput_value fresh_page) <> "" /\
  succeeded (Resolved 200) (Json (mkReply "hello!" (Some "c1")))
  = Some (mkReply "hello!" (Some "c1")) /\
  trim " and then? " <> "" /\
  requests_of
    (snd (sendPrompt
            (with_value " and then? "
               (fst (sendPrompt_settled (Resolved 200) (Json None)
                       (Json (mkReply "hello!" (Some "c1")))
                       (fst (sendPrompt fresh_page)))))))
  = [POST_chat (trim " and then? ") (Some "c1")].
Proof.
  split; [reflexivity |]. split; [vm_compute; discriminate |].
  split; [reflexivity |]. split; [vm_compute; discriminate |].
  refine (next_send_continues_the_conversation fresh_page (Resolved 200)
            (Json None) (Json (mkReply "hello!" (Some "c1")))
            (mkReply "hello!" (Some "c1")) " and then? " eq_refl _ eq_refl _);
    vm_compute; discriminate.
Defined.

(** X10: a send that fails (rejected fetch, status that is not 2xx, or a
    2xx body that is not JSON) changes neither the current conversation
    id nor the history panel and sends nothing more: there is no retry,
    and the prompt, emptied when the send started, is not given its text
    back. *)
Theorem failed_send_keeps_the_conversation (p : page) (r : fetch_result)
  (e : json_result (option string)) (d : json_result ChatReply) :
  isLoading p = false ->
  trim (promptInput_value p) <> "" ->
  succeeded r d = None ->
  let res := sendPrompt_settled r e d (fst (sendPrompt p)) in
  currentConversationId (fst res) = currentConversationId p /\
  historyList (fst res) = historyList p /\
  snd res = [] /\
  promptInput_value (fst res) = "".
Proof.
  intros H Hne Hs. cbn zeta.
  pose proof (sendPrompt_settled_state r e d (fst (sendPrompt p))) as Hst.
  cbn zeta in Hst. rewrite Hs in Hst.
  rewrite (sendPrompt_starts p H Hne) in *. cbn [fst] in *.
  destruct Hst as [[Hid [Hh Ht]] [Hv _]]. now repeat split.
Qed.

Lemma failed_send_keeps_the_conversation_witness :
  isLoading idle_page = false /\
  trim (promptInput_value idle_page) <> "" /\
  succeeded (Rejected "Failed to fetch") (Json (mkReply "" None)) = None /\
  promptInput_value
    (fst (sendPrompt_settled (Rejected "Failed to fetch") (Json None)
            (Json (mkReply "" None)) (fst (sendPrompt idle_page)))) = "".
Proof.
  split; [reflexivity |]. split; [vm_compute; discriminate |].
  split; [reflexivity |].
  refine (proj2 (proj2 (proj2
    (failed_send_keeps_the_conversation idle_page (Rejected "Failed to fetch")
       (Json None) (Json (mkReply "" None)) eq_refl _ eq_refl)))).
  vm_compute; discriminate.
Defined.



Lemma loadConversation_settled_id (r : fetch_result)
  (j : json_result (list Message)) (p : page) :
  currentConversationId (fst (loadConversation_settled r j p))
  = currentConversationId p /\
  isLoading (fst (loadConversation_settled r j p)) = false.
Proof.
  unfold loadConversation_settled, loadConversation_fetched.
  destruct r as [m | status]; [split; reflexivity |].
  destruct (ok status); cbn [negb].
  - unfold loadConversation_parsed. destruct j as [m | msgs];
      [split; reflexivity |].
    rewrite render_messages. split; reflexivity.
  - destruct (Nat.eqb status 404); split; reflexivity.
Qed.

(** X12: once a load of conversation [id] has settled, with any outcome
    (a 404 and a network failure included), the next send posts with
    that id: the id is adopted before the request is made and no failure
    takes it back. *)
Theorem send_after_load_posts_its_id (p : page) (id v : string)
  (r : fetch_result) (j : json_result (list Message)) :
  isLoading p = false ->
  trim v <> "" ->
  let p' := fst (loadConversation_settled r j (fst (loadConversation id p))) in
  requests_of (snd (sendPrompt (with_value v p')))
  = [POST_chat (trim v) (Some id)].
Proof.
  intros H Hv. cbn zeta.
  destruct (loadConversation_settled_id r j (fst (loadConversation id p)))
    as [Hid Hl].
  rewrite (sendPrompt_posts v _ Hl Hv), Hid.
  now rewrite (loadConversation_starts id p H).
Qed.

Lemma send_after_load_posts_its_id_witness :
  isLoading idle_page = false /\ trim "hi" <> "" /\
  requests_of
    (snd (sendPrompt
            (with_value "hi"
               (fst (loadConversation_settled (Resolved 404) (Json [])
                       (fst (loadConversation "gone" idle_page)))))))
  = [POST_chat (trim "hi") (Some "gone")].
Proof.
  split; [reflexivity |]. split; [vm_compute; discriminate |].
  refine (send_after_load_posts_its_id idle_page "gone" "hi" (Resolved 404)
            (Json []) eq_refl _).
  vm_compute; discriminate.
Defined.

(** X18: once a send has settled, whatever the outcome, the prompt is
    empty (as long as the user typed nothing meanwhile) and was given
    the focus back. *)
Theorem settled_send_leaves_an_empty_focused_prompt (p : page)
  (r : fetch_result) (e : json_result (option string))
  (d : json_result ChatReply) :
  isLoading p = false ->
  trim (promptInput_value p) <> "" ->
  let p' := fst (sendPrompt_settled r e d (fst (sendPrompt p))) in
  promptInput_value p' = "" /\
  promptInput_focused p' = true /\
  promptInput_disabled p' = false.
Proof.
  intros H Hne. cbn zeta.
  destruct (sendPrompt_settled_state r e d (fst (sendPrompt p)))
    as [_ [Hv [Hf _]]].
  rewrite Hv, Hf. rewrite (sendPrompt_starts p H Hne). cbn [fst].
  repeat split.
  unfold sendPrompt_settled, sendPrompt_fetched.
  destruct r as [m | status]; [reflexivity |].
  destruct (ok status); cbn [negb]; [| reflexivity].
  unfold sendPrompt_parsed. destruct d as [m | data]; [reflexivity |].
  destruct (negb _); reflexivity.
Qed.

Lemma settled_send_leaves_an_empty_focused_prompt_witness :
  isLoading idle_page = false /\
  trim (promptInput_value idle_page) <> "" /\
  promptInput_value
    (fst (sendPrompt_settled (Resolved 200) (Json None)
            (Json (mkReply "sure" (Some "c2"))) (fst (sendPrompt idle_page))))
  = "".
Proof.
  split; [reflexivity |]. split; [vm_compute; discriminate |].
  refine (proj1 (settled_send_leaves_an_empty_focused_prompt idle_page
                   (Resolved 200) (Json None)
                   (Json (mkReply "sure" (Some "c2"))) eq_refl _)).
  vm_compute; discriminate.
Defined.

(** ** The prompt that is sent *)

Lemma strip_any_blank (a : ascii) (s : string) :
  existsb (Nat.eqb (nat_of_ascii a)) [9; 10; 11; 12; 13; 32] = true ->
  strip_any whitespace (String a s) = Some s.
Proof.
  intros H. apply existsb_exists in H as [k [Hk E]].
  apply Nat.eqb_eq in E.
  assert (Ha : a = ascii_of_nat k).
  { rewrite <- E. symmetry. apply ascii_nat_embedding. }
  subst a. clear E.
  repeat (destruct Hk as [<- | Hk]; [reflexivity |]). destruct Hk.
Qed.

Lemma strip_all_blank (s : string) (n : nat) :
  blank s = true -> String.length s <= n -> strip_all n whitespace s = "".
Proof.
  revert n. induction s as [| a s IH]; intros n Hb Hn.
  - destruct n; reflexivity.
  - cbn [blank] in Hb. apply andb_true_iff in Hb as [Ha Hb].
    destruct n as [| n]; [cbn in Hn; lia |].
    cbn [strip_all]. rewrite (strip_any_blank a s Ha).
    apply IH; [assumption | cbn in Hn; lia].
Qed.

Lemma trim_blank (s : string) : blank s = true -> trim s = "".
Proof.
  intros H. unfold trim, trimStart.
  now rewrite (strip_all_blank s _ H (le_n _)).
Qed.

(** X13: a prompt of ASCII white space only (spaces, tabs, line breaks),
    the empty prompt included, is not sent: [sendPrompt] leaves the page
    as it is, the white space still in the prompt, and a click on the
    send button leaves the pending calls and the requests as they
    were. *)
Theorem blank_prompt_is_not_sent (w : world) :
  blank (promptInput_value (doc w)) = true ->
  sendPrompt (doc w) = (doc w, []) /\
  dispatch w Click_send = w /\
  dispatch w (Keypress "Enter" false) = w.
Proof.
  intros H.
  assert (Hs : sendPrompt (doc w) = (doc w, [])).
  { unfold sendPrompt. now rewrite (trim_blank _ H). }
  split; [exact Hs |].
  cbn [dispatch]. change (String.eqb "Enter" "Enter" && negb false) with true.
  cbn match. rewrite Hs. unfold commit. cbn [fst snd requests_of flat_map].
  rewrite !app_nil_r. now destruct w.
Qed.

Lemma blank_prompt_is_not_sent_witness :
  blank (promptInput_value
           (doc (mkWorld (with_value "   " idle_page) [] []))) = true /\
  sendPrompt (with_value "   " idle_page) = (with_value "   " idle_page, []).
Proof.
  split; [reflexivity |].
  exact (proj1 (blank_prompt_is_not_sent
                  (mkWorld (with_value "   " idle_page) [] []) eq_refl)).
Defined.

Lemma strip_prefix_split (t s s' : string) :
  strip_prefix t s = Some s' -> s = t +++ s'.
Proof.
  revert s. induction t as [| a t IH]; intros s H; cbn in H.
  - now injection H as ->.
  - destruct s as [| b s]; [discriminate |].
    destruct (Ascii.eqb a b) eqn:E; [| discriminate].
    apply Ascii.eqb_eq in E. subst b. cbn. f_equal. now apply IH.
Qed.

Lemma strip_prefix_is_prefix (t s : string) :
  strip_prefix t s = None <-> is_prefix t s = false.
Proof.
  revert s. induction t as [| a t IH]; intros s; cbn.
  - split; discriminate.
  - destruct s as [| b s]; [split; reflexivity |].
    destruct (Ascii.eqb a b); cbn; [apply IH | split; reflexivity].
Qed.

Lemma strip_prefix_app (t y y' z : string) :
  strip_prefix t y = Some y' -> strip_prefix t (y +++ z) = Some (y' +++ z).
Proof.
  revert y. induction t as [| a t IH]; intros y H; cbn in H.
  - now injection H as ->.
  - destruct y as [| b y]; [discriminate |]. cbn.
    destruct (Ascii.eqb a b); [now apply IH | discriminate].
Qed.

Lemma strip_any_none (tokens : list string) (s : string) :
  strip_any tokens s = None <->
  forall t, In t tokens -> is_prefix t s = false.
Proof.
  induction tokens as [| t tokens IH]; cbn.
  - split; [intros _ t [] | reflexivity].
  - destruct (strip_prefix t s) eqn:E.
    + split; [discriminate |]. intros H.
      assert (Ht : strip_prefix t s = None).
      { apply strip_prefix_is_prefix, H. now left. }
      congruence.
    + rewrite IH. split.
      * intros H u [<- | Hu]; [now apply strip_prefix_is_prefix | now apply H].
      * intros H u Hu. apply H. now right.
Qed.

Lemma strip_any_app (tokens : list string) (y z : string) :
  strip_any tokens (y +++ z) = None -> strip_any tokens y = None.
Proof.
  induction tokens as [| t tokens IH]; cbn; [reflexivity |].
  destruct (strip_prefix t y) as [y' |] eqn:E.
  - now rewrite (strip_prefix_app _ _ _ z E).
  - destruct (strip_prefix t (y +++ z)); [discriminate | exact IH].
Qed.

Lemma append_length (a b : string) :
  String.length (a +++ b) = String.length a + String.length b.
Proof. induction a as [| c a IH]; cbn; [reflexivity | now rewrite IH]. Qed.

Lemma append_assoc (a b c : string) : (a +++ b) +++ c = a +++ b +++ c.
Proof. induction a as [| x a IH]; cbn; [reflexivity | now rewrite IH]. Qed.

Lemma strip_any_shorter (tokens : list string) (s s' : string) :
  Forall (fun t => t <> "") tokens ->
  strip_any tokens s = Some s' -> String.length s' < String.length s.
Proof.
  induction 1 as [| t tokens Ht _ IH]; cbn; [discriminate |].
  destruct (strip_prefix t s) as [r |] eqn:E; [| exact IH].
  intros H. injection H as ->. apply strip_prefix_split in E. subst s.
  rewrite append_length. destruct t; [contradiction | cbn; lia].
Qed.

(** The fuel of [strip_all] is enough: nothing is left to strip. *)
Lemma strip_all_done (tokens : list string) (n : nat) (s : string) :
  Forall (fun t => t <> "") tokens ->
  String.length s <= n ->
  strip_any tokens (strip_all n tokens s) = None.
Proof.
  intros Ht. revert s. induction n as [| n IH]; intros s Hn; cbn.
  - destruct s; [| cbn in Hn; lia].
    apply strip_any_none. intros t Hin.
    rewrite Forall_forall in Ht. specialize (Ht t Hin).
    destruct t; [contradiction | reflexivity].
  - destruct (strip_any tokens s) as [s' |] eqn:E; [| exact E].
    apply IH. apply (strip_any_shorter _ _ _ Ht) in E. lia.
Qed.

Lemma strip_all_suffix (tokens : list string) (n : nat) (s : string) :
  exists w, s = w +++ strip_all n tokens s.
Proof.
  revert s. induction n as [| n IH]; intros s; cbn; [now exists "" |].
  destruct (strip_any tokens s) as [s' |] eqn:E; [| now exists ""].
  assert (Hs : exists t, s = t +++ s').
  { clear IH. induction tokens as [| t tokens IHt]; [discriminate |].
    cbn in E. destruct (strip_prefix t s) as [r |] eqn:Er.
    - injection E as ->. exists t. now apply strip_prefix_split.
    - now apply IHt. }
  destruct Hs as [t ->]. destruct (IH s') as [w Hw].
  exists (t +++ w). rewrite append_assoc. now rewrite <- Hw.
Qed.

Lemma string_of_list_ascii_app (l1 l2 : list ascii) :
  string_of_list_ascii (l1 ++ l2)
  = string_of_list_ascii l1 +++ string_of_list_ascii l2.
Proof. induction l1 as [| a l1 IH]; cbn; [reflexivity | now rewrite IH]. Qed.

Lemma list_ascii_of_string_app (a b : string) :
  list_ascii_of_string (a +++ b)
  = list_ascii_of_string a ++ list_ascii_of_string b.
Proof. induction a as [| c a IH]; cbn; [reflexivity | now rewrite IH]. Qed.

Lemma reverse_append (a b : string) :
  reverse (a +++ b) = reverse b +++ reverse a.
Proof.
  unfold reverse.
  now rewrite list_ascii_of_string_app, rev_app_distr, string_of_list_ascii_app.
Qed.

Lemma reverse_involutive (s : string) : reverse (reverse s) = s.
Proof.
  unfold reverse.
  rewrite list_ascii_of_string_of_list_ascii, rev_involutive.
  apply string_of_list_ascii_of_string.
Qed.

Lemma reverse_length (s : string) :
  String.length (reverse s) = String.length s.
Proof.
  induction s as [| a s IH]; [reflexivity |].
  change (String a s) with (String a "" +++ s).
  rewrite reverse_append, !append_length, IH. cbn. lia.
Qed.

Lemma whitespace_nonempty :
  Forall (fun t => t <> "") whitespace /\
  Forall (fun t => t <> "") (map reverse whitespace).
Proof. split; repeat constructor; discriminate. Qed.

(** X14: the fuel given to the stripping loops is enough, so [trim]
    is JavaScript's: its result begins with none of the white space code
    points and ends with none of them.  So a prompt that is posted is not
    empty and has no white space at either end. *)
Theorem sent_prompt_is_trimmed (p : page) (prompt : string)
  (cid : option string) :
  In (ChatFetch prompt cid) (snd (sendPrompt p)) ->
  prompt = trim (promptInput_value p) /\
  prompt <> "" /\
  forall t, In t whitespace ->
    is_prefix t prompt = false /\
    is_prefix (reverse t) (reverse prompt) = false.
Proof.
  intros Hin.
  assert (Htrim : forall s t, In t whitespace ->
            is_prefix t (trim s) = false /\
            is_prefix (reverse t) (reverse (trim s)) = false).
  { intros s t Ht. destruct whitespace_nonempty as [Hw Hr].
    assert (Hend : strip_any (map reverse whitespace) (reverse (trim s)) = None).
    { unfold trim, trimEnd. rewrite reverse_involutive.
      apply strip_all_done; [exact Hr |]. now rewrite reverse_length. }
    assert (Hstart : strip_any whitespace (trim s) = None).
    { unfold trim, trimEnd.
      destruct (strip_all_suffix (map reverse whitespace)
                  (String.length (trimStart s)) (reverse (trimStart s)))
        as [w Hw'].
      apply (strip_any_app _ _ (reverse w)).
      rewrite <- reverse_append, <- Hw', reverse_involutive.
      unfold trimStart. now apply strip_all_done. }
    split.
    - now apply (proj1 (strip_any_none _ _) Hstart).
    - apply (proj1 (strip_any_none _ _) Hend). now apply in_map. }
  unfold sendPrompt in Hin.
  destruct (String.eqb (trim (promptInput_value p)) "") eqn:E;
    cbn [orb] in Hin; [destruct Hin |].
  destruct (isLoading p); cbn [snd] in Hin; [destruct Hin |].
  destruct Hin as [Hin | []]. injection Hin as <- _.
  split; [reflexivity |]. split.
  - intros E'. rewrite E' in E. discriminate E.
  - intros t Ht. now apply Htrim.
Qed.

Lemma sent_prompt_is_trimmed_witness :
  In (ChatFetch "what next?" (Some "c2")) (snd (sendPrompt idle_page)) /\
  "what next?" = trim (promptInput_value idle_page).
Proof.
  assert (H : In (ChatFetch "what next?" (Some "c2")) (snd (sendPrompt idle_page))).
  { left. reflexivity. }
  split; [exact H |].
  exact (proj1 (sent_prompt_is_trimmed idle_page "what next?" (Some "c2") H)).
Defined.

(** ** The page over its whole life *)

Lemma controls_resume (t : task) (s : settlement) (p : page)
  (r : page * list task) :
  resume t s p = Some r ->
  controls_follow_loading p -> controls_follow_loading (fst r).
Proof.
  unfold controls_follow_loading.
  destruct t, s; simpl; intros H Hp; try discriminate; injection H as <-.
  - unfold loadHistoryList_fetched. destruct r0 as [m | status];
      [exact Hp |]. destruct (ok status); exact Hp.
  - unfold loadHistoryList_parsed. destruct j as [m | convs]; [exact Hp |].
    destruct (Nat.eqb (length convs) 0); [exact Hp |].
    rewrite render_history. exact Hp.
  - unfold loadConversation_fetched. destruct r0 as [m | status];
      [split; reflexivity |].
    destruct (ok status); cbn [negb fst]; [exact Hp |].
    destruct (Nat.eqb status 404); split; reflexivity.
  - unfold loadConversation_parsed. destruct j; split; reflexivity.
  - unfold sendPrompt_fetched. destruct r0 as [m | status];
      [split; reflexivity |].
    destruct (ok status); exact Hp.
  - split; reflexivity.
  - unfold sendPrompt_parsed. destruct j as [m | data]; [split; reflexivity |].
    destruct (negb _); split; reflexivity.
Qed.

Lemma controls_dispatch (w : world) (e : event) :
  controls_follow_loading (doc w) -> controls_follow_loading (doc (dispatch w e)).
Proof.
  intros Hp.
  assert (Hs : controls_follow_loading (fst (sendPrompt (doc w)))).
  { unfold sendPrompt.
    destruct (String.eqb (trim (promptInput_value (doc w))) "" || isLoading (doc w));
      [exact Hp | split; reflexivity]. }
  destruct e as [| key shift | | n | value | n s]; cbn [dispatch].
  - exact Hs.
  - destruct (String.eqb key "Enter" && negb shift); assumption.
  - cbn [commit doc fst]. unfold controls_follow_loading in *.
    unfold startNewChat, focus.
    destruct (doc w) as [c h v d f sb cur l]. cbn in *.
    destruct Hp as [-> ->]. destruct l; cbn; split; reflexivity.
  - destruct (nth_error (historyList (doc w)) n) as [l |]; [| assumption].
    destruct (li_click l) as [id |]; [| assumption].
    cbn [commit doc]. unfold loadConversation.
    destruct (isLoading (doc w)); [exact Hp | split; reflexivity].
  - exact Hp.
  - destruct (nth_error (pending w) n) as [t |]; [| assumption].
    destruct (resume t s (doc w)) as [r |] eqn:Hr; [| assumption].
    exact (controls_resume _ _ _ _ Hr Hp).
Qed.

(** X15: from the page's load on, under any events and settlements, the
    send button and the prompt are disabled exactly while [isLoading] is
    true. *)
Theorem controls_disabled_exactly_while_loading (chat : list node)
  (history : list li) (value : string) (es : list event) :
  let p := doc (run (DOMContentLoaded chat history value) es) in
  sendButton_disabled p = isLoading p /\
  promptInput_disabled p = isLoading p.
Proof.
  cbn zeta.
  assert (H : controls_follow_loading (doc (DOMContentLoaded chat history value))).
  { split; reflexivity. }
  generalize dependent (DOMContentLoaded chat history value).
  induction es as [| e es IH]; intros w Hw; cbn [run fold_left].
  - exact Hw.
  - apply IH, controls_dispatch, Hw.
Qed.

(** X16: when the static markup of the transcript has no element with
    the indicator's id then, from the page's load on, under any events
    and settlements, the transcript holds the loading indicator at most
    once, as a top-level node, and not at all when [isLoading] is
    false. *)
Theorem indicator_shown_at_most_once (chat : list node) (history : list li)
  (value : string) (es : list event) :
  indicator_free chat ->
  let p := doc (run (DOMContentLoaded chat history value) es) in
  (indicator_free (chatOutput p) \/
   exists before after,
     chatOutput p = before ++ loadingDiv :: after /\
     indicator_free before /\ indicator_free after) /\
  (isLoading p = false -> indicator_free (chatOutput p)).
Proof.
  intros Hc. cbn zeta.
  assert (H : tidy (doc (DOMContentLoaded chat history value))).
  { apply tidy_free. exact Hc. }
  generalize dependent (DOMContentLoaded chat history value).
  induction es as [| e es IH]; intros w Hw; cbn [run fold_left].
  - exact Hw.
  - apply IH, tidy_dispatch, Hw.
Qed.

Lemma indicator_shown_at_most_once_witness :
  indicator_free [messageDiv model "Welcome"] /\
  (isLoading (doc (run (DOMContentLoaded [messageDiv model "Welcome"] [] "hi")
                     [Click_send; Settle 1 (Fetched (Rejected "offline"))]))
   = false ->
   indicator_free
     (chatOutput (doc (run (DOMContentLoaded [messageDiv model "Welcome"] [] "hi")
                         [Click_send; Settle 1 (Fetched (Rejected "offline"))])))).
Proof.
  split; [reflexivity |].
  exact (proj2 (indicator_shown_at_most_once [messageDiv model "Welcome"] []
                  "hi" [Click_send; Settle 1 (Fetched (Rejected "offline"))]
                  eq_refl)).
Defined.

Lemma count_positive (f : task -> bool) (l : list task) :
  0 < count f l -> exists n t, nth_error l n = Some t /\ f t = true.
Proof.
  unfold count. induction l as [| x l IH]; cbn; [lia |].
  destruct (f x) eqn:E.
  - intros _. now exists 0, x.
  - intros H. destruct (IH H) as [n [t [Hn Ht]]]. now exists (S n), t.
Qed.

(** X17: the page is never left loading with nothing to wait for: in
    every state reached from the page's load in which [isLoading] is
    true, a call of [sendPrompt] or [loadConversation] is pending; it can
    be resumed, and however its awaited promise settles, the call either
    ends with [isLoading] false or waits once more, for the response's
    body, and then ends with [isLoading] false whatever that body is. *)
Theorem loading_is_never_stuck (chat : list node) (history : list li)
  (value : string) (es : list event) :
  let w := run (DOMContentLoaded chat history value) es in
  isLoading (doc w) = true ->
  exists n t,
    nth_error (pending w) n = Some t /\
    guarded t = true /\
    (exists s, resume t s (doc w) <> None) /\
    forall s r,
      resume t s (doc w) = Some r ->
      (isLoading (fst r) = false /\ count guarded (snd r) = 0) \/
      (exists t',
         snd r = [t'] /\ guarded t' = true /\ request_of t' = None /\
         (exists s', resume t' s' (fst r) <> None) /\
         forall s' p' r',
           resume t' s' p' = Some r' ->
           isLoading (fst r') = false /\ count guarded (snd r') = 0).
Proof.
  cbn zeta. intros Hl.
  pose proof (guard_holds_run es _
                (guard_holds_DOMContentLoaded chat history value)) as Hg.
  unfold guard_holds in Hg. rewrite Hl in Hg.
  destruct (count_positive guarded _ ltac:(rewrite Hg; lia)) as [n [t [Hn Ht]]].
  exists n, t. split; [exact Hn |]. split; [exact Ht |].
  set (p := doc (run (DOMContentLoaded chat history value) es)) in *.
  assert (Herr : forall status j p' r',
            sendPrompt_error_parsed status j p' = r' ->
            isLoading (fst r') = false /\ count guarded (snd r') = 0).
  { intros status j p' r' <-. split; reflexivity. }
  assert (Hchat : forall j p' r',
            sendPrompt_parsed j p' = r' ->
            isLoading (fst r') = false /\ count guarded (snd r') = 0).
  { intros j p' r' <-. unfold sendPrompt_parsed.
    destruct j as [m | data]; [split; reflexivity |].
    destruct (negb _); split; reflexivity. }
  assert (Hconv : forall j p' r',
            loadConversation_parsed j p' = r' ->
            isLoading (fst r') = false /\ count guarded (snd r') = 0).
  { intros j p' r' <-. unfold loadConversation_parsed.
    destruct j as [m | msgs]; split; reflexivity. }
  destruct t; try discriminate Ht.
  - (* loadConversation awaits its fetch *)
    split; [exists (Fetched (Rejected "")); discriminate |].
    intros s r Hr. destruct s; try discriminate Hr. injection Hr as <-.
    unfold loadConversation_fetched. destruct r0 as [m | status];
      [left; split; reflexivity |].
    destruct (ok status); cbn [negb].
    + right. exists ConversationBody. repeat split.
      * exists (ParsedConversation (JsonRejected "")). discriminate.
      * destruct s'; try discriminate H. injection H as <-.
        now apply (Hconv j p').
      * destruct s'; try discriminate H. injection H as <-.
        now apply (Hconv j p').
    + left. destruct (Nat.eqb status 404); split; reflexivity.
  - (* loadConversation awaits the body *)
    split; [exists (ParsedConversation (JsonRejected "")); discriminate |].
    intros s r Hr. destruct s; try discriminate Hr. injection Hr as <-.
    left. now apply (Hconv j p).
  - (* sendPrompt awaits its fetch *)
    split; [exists (Fetched (Rejected "")); discriminate |].
    intros s r Hr. destruct s; try discriminate Hr. injection Hr as <-.
    unfold sendPrompt_fetched. destruct r0 as [m | status0];
      [left; split; reflexivity |].
    right. destruct (ok status0); cbn [negb].
    + exists ChatBody. repeat split.
      * exists (ParsedChat (JsonRejected "")). discriminate.
      * destruct s'; try discriminate H. injection H as <-.
        now apply (Hchat j p').
      * destruct s'; try discriminate H. injection H as <-.
        now apply (Hchat j p').
    + exists (ChatErrorBody status0). repeat split.
      * exists (ParsedError (JsonRejected "")). discriminate.
      * destruct s'; try discriminate H. injection H as <-.
        now apply (Herr status0 j p').
      * destruct s'; try discriminate H. injection H as <-.
        now apply (Herr status0 j p').
  - (* sendPrompt awaits the error body *)
    split; [exists (ParsedError (JsonRejected "")); discriminate |].
    intros s r Hr. destruct s; try discriminate Hr. injection Hr as <-.
    left. now apply (Herr status j p).
  - (* sendPrompt awaits the reply *)
    split; [exists (ParsedChat (JsonRejected "")); discriminate |].
    intros s r Hr. destruct s; try discriminate Hr. injection Hr as <-.
    left. now apply (Hchat j p).
Qed.

Lemma loading_is_never_stuck_witness :
  isLoading (doc (run (DOMContentLoaded [] [] "hi") [Click_send])) = true /\
  exists n t,
    nth_error (pending (run (DOMContentLoaded [] [] "hi") [Click_send])) n
    = Some t /\ guarded t = true.
Proof.
  split; [reflexivity |].
  destruct (loading_is_never_stuck [] [] "hi" [Click_send] eq_refl)
    as [n [t [Hn [Ht _]]]].
  now exists n, t.
Defined.

Lemma resume_requests (t : task) (s : settlement) (p : page)
  (r : page * list task) :
  resume t s p = Some r -> length (requests_of (snd r)) <= 1.
Proof.
  destruct t, s; simpl; intros H; try discriminate; injection H as <-.
  - unfold loadHistoryList_fetched. destruct r0 as [m | status]; [cbn; lia |].
    destruct (ok status); cbn; lia.
  - unfold loadHistoryList_parsed. destruct j as [m | convs]; [cbn; lia |].
    destruct (Nat.eqb (length convs) 0); cbn; lia.
  - unfold loadConversation_fetched. destruct r0 as [m | status]; [cbn; lia |].
    destruct (ok status); [cbn; lia |].
    destruct (Nat.eqb status 404); cbn; lia.
  - unfold loadConversation_parsed. destruct j; cbn; lia.
  - unfold sendPrompt_fetched. destruct r0 as [m | status]; [cbn; lia |].
    destruct (ok status); cbn; lia.
  - cbn. lia.
  - unfold sendPrompt_parsed. destruct j as [m | data]; [cbn; lia |].
    destruct (negb _); cbn; lia.
Qed.

(** X19: one event makes at most one request: a click, a key press, an
    edit of the prompt or a settlement leaves the requests sent so far in
    place and adds none or one. *)
Theorem an_event_sends_at_most_one_request (w : world) (e : event) :
  exists rs, sent (dispatch w e) = sent w ++ rs /\ length rs <= 1.
Proof.
  assert (Hnone : exists rs, sent w = sent w ++ rs /\ length rs <= 1).
  { exists []. rewrite app_nil_r. split; [reflexivity | cbn; lia]. }
  assert (Hs : length (requests_of (snd (sendPrompt (doc w)))) <= 1).
  { unfold sendPrompt.
    destruct (String.eqb (trim (promptInput_value (doc w))) "" || isLoading (doc w));
      cbn; lia. }
  destruct e as [| key shift | | n | value | n s]; cbn [dispatch].
  - eexists. split; [reflexivity | exact Hs].
  - destruct (String.eqb key "Enter" && negb shift); [| exact Hnone].
    eexists. split; [reflexivity | exact Hs].
  - eexists. split; [reflexivity | cbn; lia].
  - destruct (nth_error (historyList (doc w)) n) as [l |]; [| exact Hnone].
    destruct (li_click l) as [id |]; [| exact Hnone].
    eexists. split; [reflexivity |].
    unfold loadConversation. destruct (isLoading (doc w)); cbn; lia.
  - exact Hnone.
  - destruct (nth_error (pending w) n) as [t |]; [| exact Hnone].
    destruct (resume t s (doc w)) as [r |] eqn:Hr; [| exact Hnone].
    eexists. split; [reflexivity | exact (resume_requests _ _ _ _ Hr)].
Qed.
